(** * transmission-healthcheck: a model of [check.py]

    The Python script polls a VPN gateway (Gluetun), a torrent daemon
    (Transmission) and an external port-check service, classifies what it
    finds into one failure, and pings Healthchecks.io with a message bounded
    to 100 characters.

    Python values are modelled by [pyval] (None, booleans, integers and
    strings: JSON numbers with a fractional part and containers in scalar
    positions are outside the model), Python dicts by [gmap string pyval],
    strings by [string], one [ascii] for each character (code points below
    256), with [len] counting characters.  Replies are taken decoded into
    the shape the script reads them in: an object of scalars from the
    gateway, an object with ["arguments"] from the daemon.  The trace of a
    run records the HTTP requests, the updates of the session header and
    the pings; what goes to [logging] is left out. *)

From Stdlib Require Import ZArith String Ascii List Lia DecimalString.
From stdpp Require Import base gmap strings list.

Open Scope string_scope.
Open Scope Z_scope.

(** ** Python strings *)

Module Str.

(** [len(s)], a Python int. *)
Definition len (s : string) : Z := Z.of_nat (String.length s).

Fixpoint take (n : nat) (s : string) : string :=
  match n, s with
  | O, _ => ""
  | S _, EmptyString => ""
  | S n', String c s' => String c (take n' s')
  end.

Fixpoint drop (n : nat) (s : string) : string :=
  match n, s with
  | O, _ => s
  | S _, EmptyString => ""
  | S n', String _ s' => drop n' s'
  end.

(** The slice [s[:k]]: a negative [k] counts from the end. *)
Definition slice_to (s : string) (k : Z) : string :=
  if k <? 0 then take (Z.to_nat (len s + k)) s else take (Z.to_nat k) s.

(** Characters for which [str.isspace()] holds, among code points below
    256: tab to carriage return, the four separators 0x1c-0x1f, space,
    NEL and the no-break space. *)
Definition is_space (c : ascii) : bool :=
  let n := nat_of_ascii c in
  ((9 <=? n) && (n <=? 13) || (28 <=? n) && (n <=? 32)
   || (n =? 133) || (n =? 160))%nat.

Fixpoint lstrip (s : string) : string :=
  match s with
  | EmptyString => ""
  | String c s' => if is_space c then lstrip s' else s
  end.

(** [rstrip] keeps a character when it is not a space or when something
    is left after it. *)
Fixpoint rstrip (s : string) : string :=
  match s with
  | EmptyString => ""
  | String c s' =>
      match rstrip s' with
      | EmptyString => if is_space c then "" else String c ""
      | r => String c r
      end
  end.

(** [s.strip()] *)
Definition strip (s : string) : string := rstrip (lstrip s).

(** [str(n)] for an int. *)
Definition of_Z (z : Z) : string := NilZero.string_of_int (Z.to_int z).

(** [s.endswith(suffix)] *)
Definition ends_with (suffix s : string) : bool :=
  let n := String.length s in
  let m := String.length suffix in
  (m <=? n)%nat && String.eqb (drop (n - m) s) suffix.

(** [sub in s] *)
Fixpoint contains (sub s : string) : bool :=
  String.prefix sub s ||
  match s with
  | EmptyString => false
  | String _ s' => contains sub s'
  end.

End Str.

(** ** Python values *)

Inductive pyval : Type :=
| PNone
| PBool (b : bool)
| PInt (z : Z)
| PStr (s : string).

Abbreviation dict := (gmap string pyval).

(** [str(v)], which is also what an f-string field renders. *)
Definition py_str (v : pyval) : string :=
  match v with
  | PNone => "None"
  | PBool true => "True"
  | PBool false => "False"
  | PInt z => Str.of_Z z
  | PStr s => s
  end.

(** [bool(v)] *)
Definition truthy (v : pyval) : bool :=
  match v with
  | PNone => false
  | PBool b => b
  | PInt z => negb (z =? 0)
  | PStr s => negb (String.eqb s "")
  end.

(** [a == b]: a boolean is the integer 0 or 1. *)
Definition py_eq (a b : pyval) : bool :=
  match a, b with
  | PNone, PNone => true
  | PStr s, PStr t => String.eqb s t
  | PInt x, PInt y => x =? y
  | PBool x, PBool y => Bool.eqb x y
  | PBool x, PInt y | PInt y, PBool x => (if x then 1 else 0) =? y
  | _, _ => false
  end.

(** [a or b] *)
Definition py_or (a b : pyval) : pyval := if truthy a then a else b.

(** [d.get(k)] and [d.get(k, default)] *)
Definition get (d : dict) (k : string) : pyval := default PNone (d !! k).
Definition get_or (d : dict) (k : string) (dflt : pyval) : pyval :=
  default dflt (d !! k).

(** Truth value of an optional dict, string or list: [None] and the empty
    container are false. *)
Definition truthy_dict (o : option dict) : bool :=
  match o with
  | Some d => negb (bool_decide (d = ∅))
  | None => false
  end.

Definition truthy_str (o : option string) : bool :=
  match o with
  | Some s => negb (String.eqb s "")
  | None => false
  end.

(** An f-string field holding [None] or a string. *)
Definition fmt_opt (o : option string) : string :=
  match o with
  | Some s => s
  | None => "None"
  end.

(** An f-string field holding [d.get(k)] where [d] is the payload that the
    enclosing [if] found true. *)
Definition field (o : option dict) (k : string) : string :=
  py_str (get (default ∅ o) k).

(** ** HealthcheckError

    [message] is a string at every place where [main] builds the error. *)

Record HealthcheckError : Type := {
  message : string;
  diag_context : option string;
  torrent : option dict;
  mismatch_ports : option dict;
  portcheck_error : option dict
}.

(** The [detail] of a port check error:
    [portcheck_error.get('content') or portcheck_error.get('exception')]. *)
Definition portcheck_detail (e : HealthcheckError) : string :=
  let d := default ∅ (portcheck_error e) in
  py_str (py_or (get d "content") (get d "exception")).

Definition full_message (e : HealthcheckError) : string :=
  if truthy_dict (portcheck_error e) then
    message e ++ "(" ++ portcheck_detail e ++ ") | " ++ fmt_opt (diag_context e)
  else if truthy_dict (mismatch_ports e) then
    let g := field (mismatch_ports e) "gluetun" in
    let t := field (mismatch_ports e) "transmission" in
    message e ++ "(G:" ++ g ++ "|T:" ++ t ++ ") | " ++ fmt_opt (diag_context e)
  else if truthy_dict (torrent e) then
    message e ++ " T:" ++ field (torrent e) "id"
      ++ "(" ++ field (torrent e) "name" ++ ") - "
      ++ field (torrent e) "errorString" ++ " | " ++ fmt_opt (diag_context e)
  else if truthy_str (diag_context e) then
    message e ++ " | " ++ fmt_opt (diag_context e)
  else message e.

Definition hc_message (e : HealthcheckError) : string :=
  let full_msg := full_message e in
  if Str.len full_msg <=? 100 then full_msg
  else if truthy_dict (portcheck_error e) then
    let p1 := message e in
    let p2 := "(" ++ portcheck_detail e ++ ")" in
    let msg := p1 ++ p2 in
    if Str.len msg <=? 100 then msg else Str.slice_to msg 100
  else if truthy_dict (mismatch_ports e) then
    let g := field (mismatch_ports e) "gluetun" in
    let t := field (mismatch_ports e) "transmission" in
    let p1 := message e in
    let p2 := "(G:" ++ g ++ "|T:" ++ t ++ ")" in
    let msg := p1 ++ p2 in
    if Str.len msg <=? 100 then msg else Str.slice_to msg 100
  else if truthy_dict (torrent e) then
    let p1 := message e in
    let p2 := " T:" ++ field (torrent e) "id"
                ++ "(" ++ field (torrent e) "name" ++ ")" in
    let p3 := ": " ++ field (torrent e) "errorString" in
    let msg := p1 ++ p2 ++ p3 in
    if Str.len msg <=? 100 then msg
    else
      let available_len := 100 - Str.len (p1 ++ p2) in
      if 4 <? available_len then
        let p3_trunc := Str.slice_to p3 (available_len - 3) ++ "..." in
        p1 ++ p2 ++ p3_trunc
      else
        let p2_trunc := " T:" ++ field (torrent e) "id" in
        let available_len := 100 - Str.len (p1 ++ p2_trunc) in
        if 4 <? available_len then
          let p3_trunc := Str.slice_to p3 (available_len - 3) ++ "..." in
          p1 ++ p2_trunc ++ p3_trunc
        else Str.slice_to (p1 ++ p2_trunc) 100
  else Str.slice_to full_msg 97 ++ "...".

(** ** The [requests] library

    A reply carries what the script reads from it.  [json] is what
    [response.json()] gives: the decoded body, or the message of the decode
    error. *)

Record response (J : Type) : Type := {
  status_code : Z;
  reason : string;
  url : string;
  session_id_header : option string; (* headers.get("X-Transmission-Session-Id") *)
  text : string;
  json : string + J
}.

Arguments status_code {J} _.
Arguments reason {J} _.
Arguments url {J} _.
Arguments session_id_header {J} _.
Arguments text {J} _.
Arguments json {J} _.

(** What a request does: it raises a [requests.RequestException] of class
    [cls] (connection refused, timeout, ...) with [str(e) = msg], or it
    returns a reply.  A request alone never raises [HTTPError]; only
    [raise_for_status] does. *)
Inductive http_result (J : Type) : Type :=
| Raised (cls msg : string)
| Replied (r : response J).

Arguments Raised {J} _ _.
Arguments Replied {J} _.

(** ** Exceptions *)

Inductive exn : Type :=
| ExHealthcheck (e : HealthcheckError)
| ExHTTPError (status : Z) (session_id : option string) (msg : string)
| ExRequest (cls msg : string)
| ExConnectionError (msg : string)
| ExValueError (msg : string).

(** [str(e)]; [HealthcheckError.__init__] passes [full_message] up. *)
Definition exn_str (e : exn) : string :=
  match e with
  | ExHealthcheck e => full_message e
  | ExHTTPError _ _ msg => msg
  | ExRequest _ msg => msg
  | ExConnectionError msg => msg
  | ExValueError msg => msg
  end.

(** [type(e).__name__] *)
Definition exn_class (e : exn) : string :=
  match e with
  | ExHealthcheck _ => "HealthcheckError"
  | ExHTTPError _ _ _ => "HTTPError"
  | ExRequest cls _ => cls
  | ExConnectionError _ => "ConnectionError"
  | ExValueError _ => "ValueError"
  end.

(** [response.raise_for_status()]: [HTTPError] for a 4xx or 5xx status,
    nothing for any other status. *)
Definition raise_for_status {J} (r : response J) : exn + unit :=
  if (400 <=? status_code r) && (status_code r <? 500) then
    inl (ExHTTPError (status_code r) (session_id_header r)
           (Str.of_Z (status_code r) ++ " Client Error: " ++ reason r
              ++ " for url: " ++ url r))
  else if (500 <=? status_code r) && (status_code r <? 600) then
    inl (ExHTTPError (status_code r) (session_id_header r)
           (Str.of_Z (status_code r) ++ " Server Error: " ++ reason r
              ++ " for url: " ++ url r))
  else inr tt.

(** [response.json()]: the decode error is a [RequestException]. *)
Definition response_json {J} (r : response J) : exn + J :=
  match json r with
  | inl msg => inl (ExRequest "JSONDecodeError" msg)
  | inr j => inr j
  end.

(** ** External port check *)

(** The four shapes of the pair [(status_bool, error_dict)] returned by
    [check_external_port]. *)
Definition port_open : option bool * option dict := (Some true, None).

Definition port_closed : option bool * option dict := (Some false, None).

Definition portcheck_unexpected (content : string) : option bool * option dict :=
  (None, Some (<["error" := PStr "E:PORTCHECK_UNEXPECTED_RESP"]>
                 (<["content" := PStr content]> ∅))).

Definition portcheck_down (cls : string) : option bool * option dict :=
  (None, Some (<["error" := PStr "E:PORTCHECK_DOWN"]>
                 (<["exception" := PStr cls]> ∅))).

Definition portcheck_url (port : pyval) : string :=
  "https://portcheck.transmissionbt.com/" ++ py_str port.

(** [check_external_port(port)], given what [requests.get] does for a URL.
    Both the exception of a failed request and the [HTTPError] of
    [raise_for_status] are caught by the one [except] clause. *)
Definition check_external_port (requests_get : string -> http_result unit)
    (port : pyval) : option bool * option dict :=
  match requests_get (portcheck_url port) with
  | Raised cls _ => portcheck_down cls
  | Replied response =>
      match raise_for_status response with
      | inl e => portcheck_down (exn_class e)
      | inr _ =>
          let content := Str.strip (text response) in
          if String.eqb content "1" then port_open
          else if String.eqb content "0" then port_closed
          else portcheck_unexpected content
      end
  end.

(** ** The torrent daemon's RPC replies

    A decoded RPC reply is a JSON object with an optional ["arguments"]
    object; its scalar members are in [fields], and ["torrents"], when
    present, is a list of objects. *)

Record rpc_args : Type := {
  fields : dict;
  torrents : option (list dict)
}.

Record rpc_json : Type := {
  arguments : option rpc_args
}.

(** [data.get("arguments", {})] *)
Definition get_arguments (data : rpc_json) : rpc_args :=
  default {| fields := ∅; torrents := None |} (arguments data).

(** ** The world and the state of a run

    The world gives the outcome of every request the script makes: the two
    gateway requests, the [n]-th request sent to the daemon, and the
    port-check request by URL.  The state holds the session's
    [X-Transmission-Session-Id] header, the number of requests sent to the
    daemon, and the trace of requests, header updates and pings. *)

Record world : Type := {
  gluetun_portforward : http_result dict;
  gluetun_vpn : http_result dict;
  transmission : nat -> http_result rpc_json;
  portcheck : string -> http_result unit
}.

Inductive event : Type :=
| EvGluetunGet (path : string)
| EvSessionGet
| EvSessionPost (method : string) (session_id : option string)
| EvHeadersUpdate (session_id : string)
| EvPortcheckGet (port : pyval)
| EvPing (ev msg : string)
| EvNewSession.

Record state : Type := {
  headers : option string;
  sent : nat;
  trace : list event
}.

Definition emit (ev : event) (st : state) : state :=
  {| headers := headers st; sent := sent st; trace := trace st ++ [ev] |}.

(** A computation either raises or returns, and leaves a state. *)
Definition M (A : Type) : Type := state -> (exn + A) * state.

Definition ret {A} (a : A) : M A := fun st => (inr a, st).

Definition raise {A} (e : exn) : M A := fun st => (inl e, st).

Definition bind {A B} (m : M A) (k : A -> M B) : M B :=
  fun st =>
    match m st with
    | (inr a, st') => k a st'
    | (inl e, st') => (inl e, st')
    end.

(** [try: m  except ... as e: handler e] *)
Definition try_except {A} (m : M A) (handler : exn -> M A) : M A :=
  fun st =>
    match m st with
    | (inl e, st') => handler e st'
    | r => r
    end.

Definition lift {A} (r : exn + A) : M A := fun st => (r, st).

Declare Scope py_scope.
Delimit Scope py_scope with py.
Notation "x <- m ;; k" := (bind m (fun x => k))
  (at level 100, m at next level, right associativity) : py_scope.
Notation "m ;;; k" := (bind m (fun _ => k))
  (at level 100, right associativity) : py_scope.
Open Scope py_scope.

(** A gateway request: [requests.get], [raise_for_status()], [json()]. *)
Definition gluetun_get (path : string) (res : http_result dict) : M dict :=
  fun st =>
    let st' := emit (EvGluetunGet path) st in
    match res with
    | Raised cls msg => (inl (ExRequest cls msg), st')
    | Replied r =>
        match raise_for_status r with
        | inl e => (inl e, st')
        | inr _ => (response_json r, st')
        end
    end.

(** [session.get(TR_RPC_URL, ...)] and [session.post(TR_RPC_URL, ...)]
    take the daemon's next answer. *)
Definition session_get (w : world) : M (response rpc_json) :=
  fun st =>
    let st' := {| headers := headers st; sent := S (sent st);
                  trace := trace st ++ [EvSessionGet] |} in
    match transmission w (sent st) with
    | Raised cls msg => (inl (ExRequest cls msg), st')
    | Replied r => (inr r, st')
    end.

Definition session_post (w : world) (method : string) : M (response rpc_json) :=
  fun st =>
    let st' := {| headers := headers st; sent := S (sent st);
                  trace := trace st ++ [EvSessionPost method (headers st)] |} in
    match transmission w (sent st) with
    | Raised cls msg => (inl (ExRequest cls msg), st')
    | Replied r => (inr r, st')
    end.

(** [session.headers.update({"X-Transmission-Session-Id": session_id})] *)
Definition headers_update (session_id : string) : M unit :=
  fun st =>
    (inr tt, {| headers := Some session_id; sent := sent st;
                trace := trace st ++ [EvHeadersUpdate session_id] |}).

(** [get_transmission_session_id(session)].  [session.get] raises no
    [HTTPError], so the handler always wraps what it caught. *)
Definition get_transmission_session_id (w : world) : M (option string) :=
  response <- try_except (session_get w) (fun e =>
      raise (ExConnectionError
               ("Failed to connect to Transmission to get session ID: "
                  ++ exn_str e))) ;;
  ret (session_id_header response).

(** The three statements under [try:] in [run_transmission_rpc]; they are
    repeated in the handler of the 409 status. *)
Definition post_rpc (w : world) (method : string) : M rpc_json :=
  response <- session_post w method ;;
  lift (raise_for_status response) ;;;
  lift (response_json response).

(** "Get session ID first time": nothing to do when the session already
    has the header. *)
Definition attach_session_id (w : world) : M unit :=
  fun st =>
    match headers st with
    | None =>
        (session_id <- get_transmission_session_id w ;;
         match session_id with
         | Some id =>
             if truthy_str session_id then headers_update id
             else raise (ExValueError "Could not retrieve Transmission Session ID.")
         | None =>
             raise (ExValueError "Could not retrieve Transmission Session ID.")
         end) st
    | Some _ => ret tt st
    end.

(** [run_transmission_rpc(session, method, arguments)].  An exception
    raised inside a handler is not caught by the other handler. *)
Definition run_transmission_rpc (w : world) (method : string) : M rpc_json :=
  attach_session_id w ;;;
  try_except (post_rpc w method) (fun e =>
    match e with
    | ExHTTPError status session_id _ =>
        if status =? 409 then
          match session_id with
          | Some id =>
              if truthy_str session_id then
                headers_update id ;;;
                post_rpc w method
              else
                raise (ExValueError "Could not renew expired Transmission Session ID.")
          | None =>
              raise (ExValueError "Could not renew expired Transmission Session ID.")
          end
        else raise e
    | ExRequest _ msg =>
        raise (ExConnectionError
                 ("Transmission RPC call '" ++ method ++ "' failed: " ++ msg))
    | _ => raise e
    end).

(** ** One pass of the loop in [main] *)

(** The local variables of [main] once steps 1 to 3 are done. *)
Record cycle_data : Type := {
  gluetun_port : pyval;
  gluetun_vpn_status : pyval;
  transmission_port : pyval;
  active_count : pyval;
  dl_speed : pyval;
  ul_speed : pyval;
  system_error_torrents : list dict;
  port_status_bool : option bool;
  port_check_error : option dict
}.

Definition plain_error (msg : string) (ctx : option string) : HealthcheckError :=
  {| message := msg; diag_context := ctx; torrent := None;
     mismatch_ports := None; portcheck_error := None |}.

(** Steps 1 to 3: the gateway, the daemon, the external port check. *)
Definition gather (w : world) : M cycle_data :=
  gluetun_port_data <- gluetun_get "/v1/portforward" (gluetun_portforward w) ;;
  gluetun_vpn_data <- gluetun_get "/v1/vpn/status" (gluetun_vpn w) ;;
  let gluetun_port := get gluetun_port_data "port" in
  let gluetun_vpn_status := get gluetun_vpn_data "status" in
  if negb (truthy gluetun_port && truthy gluetun_vpn_status) then
    raise (ExHealthcheck (plain_error
      "E:GLUETUN_PARSE | Missing 'port' or 'status' in Gluetun API response" None))
  else
    session_data <- run_transmission_rpc w "session-get" ;;
    session_stats <- run_transmission_rpc w "session-stats" ;;
    torrents_data <- run_transmission_rpc w "torrent-get" ;;
    let transmission_port := get (fields (get_arguments session_data)) "peer-port" in
    let stats_args := fields (get_arguments session_stats) in
    let active_count := get_or stats_args "activeTorrentCount" (PStr "N/A") in
    let dl_speed := get_or stats_args "downloadSpeed" (PStr "N/A") in
    let ul_speed := get_or stats_args "uploadSpeed" (PStr "N/A") in
    match transmission_port with
    | PNone =>
        raise (ExHealthcheck (plain_error
          "E:TR_PARSE | Missing 'peer-port' in Transmission session data" None))
    | _ =>
        let system_error_torrents :=
          List.filter (fun t => py_eq (get t "error") (PInt 3))
            (default [] (torrents (get_arguments torrents_data))) in
        fun st =>
          let '(port_status_bool, port_check_error) :=
            check_external_port (portcheck w) transmission_port in
          (inr {| gluetun_port := gluetun_port;
                  gluetun_vpn_status := gluetun_vpn_status;
                  transmission_port := transmission_port;
                  active_count := active_count;
                  dl_speed := dl_speed;
                  ul_speed := ul_speed;
                  system_error_torrents := system_error_torrents;
                  port_status_bool := port_status_bool;
                  port_check_error := port_check_error |},
           emit (EvPortcheckGet transmission_port) st)
    end.

(** ["OPEN" if port_status_bool else "CLOSED"]: [None] is false. *)
Definition port_status_str (d : cycle_data) : string :=
  match port_status_bool d with
  | Some true => "OPEN"
  | _ => "CLOSED"
  end.

Definition diagnostic_context (d : cycle_data) : string :=
  "P:" ++ py_str (transmission_port d) ++ "(" ++ port_status_str d
    ++ ") VPN:" ++ py_str (gluetun_vpn_status d)
    ++ " | DL/UL:" ++ py_str (dl_speed d) ++ "/" ++ py_str (ul_speed d)
    ++ " | Act:" ++ py_str (active_count d).

(** Step 4: the checks, in the order of the source.  The result is the
    context of a healthy pass, or the error raised.  The subscript
    [port_check_error['error']] is read with [get]: every dict returned by
    [check_external_port] has the key. *)
Definition perform_checks (d : cycle_data) : exn + string :=
  let ctx := diagnostic_context d in
  if truthy_dict (port_check_error d) then
    inl (ExHealthcheck
      {| message := py_str (get (default ∅ (port_check_error d)) "error");
         diag_context := Some ctx; torrent := None; mismatch_ports := None;
         portcheck_error := port_check_error d |})
  else if negb (py_eq (gluetun_port d) (transmission_port d)) then
    inl (ExHealthcheck
      {| message := "E:MISMATCH"; diag_context := Some ctx; torrent := None;
         mismatch_ports :=
           Some (<["gluetun" := gluetun_port d]>
                   (<["transmission" := transmission_port d]> ∅));
         portcheck_error := None |})
  else if negb (default false (port_status_bool d)) then
    inl (ExHealthcheck (plain_error "E:CLOSED" (Some ctx)))
  else
    match system_error_torrents d with
    | t :: _ =>
        inl (ExHealthcheck
          {| message := "E:SYS_ERR"; diag_context := Some ctx; torrent := Some t;
             mismatch_ports := None; portcheck_error := None |})
    | [] => inr ctx
    end.

(** The body of [try:]. *)
Definition cycle_body (w : world) : M string :=
  d <- gather w ;;
  ctx <- lift (perform_checks d) ;;
  fun st => (inr ctx, emit (EvPing "success" ("OK | " ++ ctx)) st).

(** What the two [except] clauses send with the "fail" ping. *)
Definition fail_message (e : exn) : string :=
  match e with
  | ExHealthcheck e => hc_message e
  | _ => Str.slice_to (exn_str e) 100
  end.

(** One pass: the "start" ping, the body, and on failure the "fail" ping
    and a fresh session. *)
Definition cycle (w : world) (st : state) : state :=
  match cycle_body w (emit (EvPing "start" "") st) with
  | (inr _, st') => st'
  | (inl e, st') =>
      {| headers := None; sent := sent st';
         trace := trace st' ++ [EvPing "fail" (fail_message e); EvNewSession] |}
  end.


(** ** The failure variants of the specification

    An outcome of the checks is read as one variant by the payload its
    error was built with, and by its code when it carries none. *)

Inductive diagnosis : Type :=
| Success
| ParseError
| PortCheckFailure
| PortMismatch
| PortClosed
| SystemErrorTorrent
| Unclassified.

Definition diagnosis_of {A} (r : exn + A) : diagnosis :=
  match r with
  | inr _ => Success
  | inl (ExHealthcheck e) =>
      match portcheck_error e, mismatch_ports e, torrent e with
      | Some _, _, _ => PortCheckFailure
      | None, Some _, _ => PortMismatch
      | None, None, Some _ => SystemErrorTorrent
      | None, None, None =>
          if String.eqb (message e) "E:CLOSED" then PortClosed
          else if String.prefix "E:GLUETUN_PARSE" (message e)
                  || String.prefix "E:TR_PARSE" (message e) then ParseError
          else Unclassified
      end
  | inl _ => Unclassified
  end.

(** What the specification calls [RpcError]: an HTTP error status of the
    daemon that reaches the caller. *)
Definition is_RpcError (e : exn) : bool :=
  match e with
  | ExHTTPError _ _ _ => true
  | _ => false
  end.

(** The tri-state result of the probe, as the specification names it, and
    the way [main] reads the pair returned by [check_external_port]: an
    error dict first, then the truth value of [status_bool]. *)
Inductive PortCheckResult : Type :=
| Open
| Closed
| Indeterminate (reason detail : string).

Definition probe_result (r : option bool * option dict) : PortCheckResult :=
  match r with
  | (_, Some err) =>
      Indeterminate (py_str (get err "error"))
        (match err !! "content" with
         | Some content => py_str content
         | None => py_str (get err "exception")
         end)
  | (Some true, None) => Open
  | (_, None) => Closed
  end.

(** Following the specification, 4.4 step 6: the checks in priority order,
    the first match decides. *)
Definition spec_diagnosis (probe : PortCheckResult) (mismatch : bool)
    (system_error_count : nat) : diagnosis :=
  match probe with
  | Indeterminate _ _ => PortCheckFailure
  | _ =>
      if mismatch then PortMismatch
      else
        match probe with
        | Closed => PortClosed
        | _ => if (0 <? system_error_count)%nat then SystemErrorTorrent
               else Success
        end
  end.

(** The data of a pass with another result of the probe. *)
Definition set_probe (d : cycle_data) (r : option bool * option dict) : cycle_data :=
  {| gluetun_port := gluetun_port d;
     gluetun_vpn_status := gluetun_vpn_status d;
     transmission_port := transmission_port d;
     active_count := active_count d;
     dl_speed := dl_speed d;
     ul_speed := ul_speed d;
     system_error_torrents := system_error_torrents d;
     port_status_bool := fst r;
     port_check_error := snd r |}.

(** * Sample inputs *)

Module Sample.

(** [s * n] *)
Fixpoint times (s : string) (n : nat) : string :=
  match n with
  | O => ""
  | S n' => s ++ times s n'
  end.

Definition reply {J} (status : Z) (session_id : option string) (body : string)
    (decoded : string + J) : response J :=
  {| status_code := status;
     reason := if status =? 200 then "OK" else "Error";
     url := "http://localhost/";
     session_id_header := session_id;
     text := body;
     json := decoded |}.

Definition no_json {J} : string + J :=
  inl "Expecting value: line 1 column 1 (char 0)".

Definition ok_json {J} (j : J) : http_result J :=
  Replied (reply 200 None "" (inr j)).

Definition rpc (args : dict) (ts : option (list dict)) : rpc_json :=
  {| arguments := Some {| fields := args; torrents := ts |} |}.

(** A torrent in the "local error" state: id 42, a name of 90 characters
    and an error string of 50. *)
Definition bad_torrent : dict :=
  <["id" := PInt 42]> (<["name" := PStr (times "n" 90)]>
    (<["error" := PInt 3]> (<["errorString" := PStr (times "e" 50)]> ∅))).

Definition good_torrent : dict :=
  <["id" := PInt 7]> (<["name" := PStr "debian.iso"]>
    (<["error" := PInt 0]> (<["errorString" := PStr ""]> ∅))).

(** A daemon that hands out the token ["tok0"] on the first request and
    then answers [session-get], [session-stats] and [torrent-get]. *)
Definition daemon (peer_port : pyval) (ts : list dict) (n : nat)
    : http_result rpc_json :=
  match n with
  | O => Replied (reply 409 (Some "tok0") "" no_json)
  | 1%nat => ok_json (rpc (<["peer-port" := peer_port]> ∅) None)
  | 2%nat => ok_json (rpc (<["activeTorrentCount" := PInt 1]>
                            (<["downloadSpeed" := PInt 0]>
                               (<["uploadSpeed" := PInt 0]> ∅))) None)
  | _ => ok_json (rpc ∅ (Some ts))
  end.

Definition mk_world (gateway_port : pyval) (vpn : pyval) (peer_port : pyval)
    (ts : list dict) (probe : http_result unit) : world :=
  {| gluetun_portforward := ok_json (<["port" := gateway_port]> ∅);
     gluetun_vpn := ok_json (<["status" := vpn]> ∅);
     transmission := daemon peer_port ts;
     portcheck := fun _ => probe |}.

Definition body (s : string) : http_result unit :=
  Replied (reply 200 None s (inr tt)).

Definition newline : string := String (ascii_of_nat 10) "".

Definition fresh : state := {| headers := None; sent := 0; trace := [] |}.

(** Everything is fine: 51413 on both sides, the port is open. *)
Definition w_healthy : world :=
  mk_world (PInt 51413) (PStr "connected") (PInt 51413) [good_torrent] (body "1").

(** The ports differ, a torrent is in error, and the port check times out. *)
Definition w_all_wrong : world :=
  mk_world (PInt 51413) (PStr "connected") (PInt 60000)
    [good_torrent; bad_torrent] (Raised "ConnectTimeout" "timed out").

(** The ports differ and a torrent is in error; the port is open. *)
Definition w_mismatch : world :=
  mk_world (PInt 51413) (PStr "connected") (PInt 60000)
    [good_torrent; bad_torrent] (body "1").

(** Only a torrent is in error. *)
Definition w_sys_err : world :=
  mk_world (PInt 51413) (PStr "connected") (PInt 51413)
    [good_torrent; bad_torrent] (body "1").

(** The gateway reports port 0. *)
Definition w_port_zero : world :=
  mk_world (PInt 0) (PStr "connected") (PInt 51413) [] (body "1").

(** The gateway cannot be reached. *)
Definition refused : string :=
  "HTTPConnectionPool(host='localhost', port=8000): Max retries exceeded "
  ++ "with url: /v1/portforward (Caused by NewConnectionError: "
  ++ "[Errno 111] Connection refused)".

Definition w_gateway_down : world :=
  {| gluetun_portforward := Raised "ConnectionError" refused;
     gluetun_vpn := ok_json (<["status" := PStr "connected"]> ∅);
     transmission := daemon (PInt 51413) [];
     portcheck := fun _ => body "1" |}.

(** A daemon whose token has expired: 409 with the token ["tok1"], then
    the answer [second]. *)
Definition w_expired (second : http_result rpc_json) : world :=
  {| gluetun_portforward := ok_json ∅;
     gluetun_vpn := ok_json ∅;
     transmission := fun n =>
       match n with
       | O => Replied (reply 409 (Some "tok1") "" no_json)
       | _ => second
       end;
     portcheck := fun _ => body "1" |}.

Definition with_token : state :=
  {| headers := Some "tok0"; sent := 0; trace := [] |}.

Definition sys_err : HealthcheckError :=
  {| message := "E:SYS_ERR";
     diag_context := Some "P:51413(OPEN) VPN:connected | DL/UL:0/0 | Act:1";
     torrent := Some bad_torrent; mismatch_ports := None;
     portcheck_error := None |}.

Definition mismatch : HealthcheckError :=
  {| message := "E:MISMATCH";
     diag_context := Some "P:60000(OPEN) VPN:connected | DL/UL:0/0 | Act:1";
     torrent := None;
     mismatch_ports :=
       Some (<["gluetun" := PInt 51413]> (<["transmission" := PInt 60000]> ∅));
     portcheck_error := None |}.

Definition long_plain : HealthcheckError :=
  plain_error "E:CLOSED" (Some (times "c" 120)).

(** What [gather] collects in the world [w_all_wrong]. *)
Definition all_wrong_data : cycle_data :=
  {| gluetun_port := PInt 51413;
     gluetun_vpn_status := PStr "connected";
     transmission_port := PInt 60000;
     active_count := PInt 1;
     dl_speed := PInt 0;
     ul_speed := PInt 0;
     system_error_torrents := [bad_torrent];
     port_status_bool := None;
     port_check_error :=
       Some (<["error" := PStr "E:PORTCHECK_DOWN"]>
               (<["exception" := PStr "ConnectTimeout"]> ∅)) |}.

(** The same with an open port: what [gather] collects in [w_mismatch]. *)
Definition mismatch_data : cycle_data :=
  {| gluetun_port := PInt 51413;
     gluetun_vpn_status := PStr "connected";
     transmission_port := PInt 60000;
     active_count := PInt 1;
     dl_speed := PInt 0;
     ul_speed := PInt 0;
     system_error_torrents := [bad_torrent];
     port_status_bool := Some true;
     port_check_error := None |}.

(** The state after [gather] in either world, from [fresh]. *)
Definition gathered (port : pyval) : state :=
  {| headers := Some "tok0"; sent := 4;
     trace := [EvGluetunGet "/v1/portforward"; EvGluetunGet "/v1/vpn/status";
               EvSessionGet; EvHeadersUpdate "tok0";
               EvSessionPost "session-get" (Some "tok0");
               EvSessionPost "session-stats" (Some "tok0");
               EvSessionPost "torrent-get" (Some "tok0");
               EvPortcheckGet port] |}.

End Sample.

(** * The rest of the script *)

(** ** The notification URL

    The URL that [ping_healthchecks(event, message)] posts to.  The
    function catches every [RequestException] of the post and does not
    look at the status of the reply, so a ping has no outcome for [main]:
    in a trace it is the event [EvPing]. *)
Definition ping_url (HC_URL event : string) : string :=
  if String.eqb event "start" || String.eqb event "fail"
  then HC_URL ++ "/" ++ event
  else HC_URL.

(** ** Reading a trace *)

Definition is_ping (ev : event) : bool :=
  match ev with
  | EvPing _ _ => true
  | _ => false
  end.



Definition is_portcheck (ev : event) : bool :=
  match ev with
  | EvPortcheckGet _ => true
  | _ => false
  end.

Definition count (p : event -> bool) (evs : list event) : nat :=
  length (List.filter p evs).


(** The token of a session is absent or a non-empty string. *)
Definition token_ok (st : state) : Prop :=
  match headers st with
  | Some tok => tok <> ""
  | None => True
  end.

(** The computation [m] only adds events to the trace, all of them in [P]. *)
Definition appends {A} (P : event -> Prop) (m : M A) : Prop :=
  forall st, exists evs,
    trace (snd (m st)) = (trace st ++ evs)%list /\ List.Forall P evs.

(** Neither a ping nor a port-check request. *)
Definition quiet (ev : event) : Prop :=
  is_ping ev = false /\ is_portcheck ev = false.

(** The computation [m] adds quiet events only, and when it returns, one
    port-check request for the port of its result after them. *)
Definition probes_last {A} (port : A -> pyval) (m : M A) : Prop :=
  forall st,
    match m st with
    | (inl _, st') =>
        exists evs, trace st' = (trace st ++ evs)%list /\ List.Forall quiet evs
    | (inr a, st') =>
        exists evs,
          trace st' = (trace st ++ evs ++ [EvPortcheckGet (port a)])%list /\
          List.Forall quiet evs
    end.

(** * More sample inputs *)

Module Cases.

(** A port-check error with a long detail and a long context. *)
Definition portcheck_long : HealthcheckError :=
  {| message := "E:PORTCHECK_UNEXPECTED_RESP";
     diag_context := Some (Sample.times "c" 120);
     torrent := None; mismatch_ports := None;
     portcheck_error :=
       Some (<["error" := PStr "E:PORTCHECK_UNEXPECTED_RESP"]>
               (<["content" := PStr (Sample.times "<html>" 20)]> ∅)) |}.

(** The mismatch of [Sample.mismatch] with a long context. *)
Definition mismatch_long : HealthcheckError :=
  {| message := "E:MISMATCH";
     diag_context := Some (Sample.times "c" 120);
     torrent := None;
     mismatch_ports :=
       Some (<["gluetun" := PInt 51413]> (<["transmission" := PInt 60000]> ∅));
     portcheck_error := None |}.

(** The probe answers with white space only. *)
Definition w_blank_probe : world :=
  Sample.mk_world (PInt 51413) (PStr "connected") (PInt 51413) []
    (Sample.body ("  " ++ Sample.newline)).

(** What [gather] collects in [w_blank_probe]. *)
Definition blank_probe_data : cycle_data :=
  {| gluetun_port := PInt 51413;
     gluetun_vpn_status := PStr "connected";
     transmission_port := PInt 51413;
     active_count := PInt 1;
     dl_speed := PInt 0;
     ul_speed := PInt 0;
     system_error_torrents := [];
     port_status_bool := None;
     port_check_error :=
       Some (<["error" := PStr "E:PORTCHECK_UNEXPECTED_RESP"]>
               (<["content" := PStr ""]> ∅)) |}.

(** The gateway gives its port as the string "51413". *)
Definition w_string_port : world :=
  Sample.mk_world (PStr "51413") (PStr "connected") (PInt 51413) []
    (Sample.body "1").

(** A daemon that answers every request with [r]. *)
Definition w_daemon (r : http_result rpc_json) : world :=
  {| gluetun_portforward := Sample.ok_json (<["port" := PInt 51413]> ∅);
     gluetun_vpn := Sample.ok_json (<["status" := PStr "connected"]> ∅);
     transmission := fun _ => r;
     portcheck := fun _ => Sample.body "1" |}.

(** A daemon whose token has expired and that is gone at the retry. *)
Definition w_gone_at_retry : world :=
  Sample.w_expired (Raised "ConnectionError" "Connection aborted.").

(** The daemon's session data have no peer port. *)
Definition w_no_peer_port : world :=
  {| gluetun_portforward := Sample.ok_json (<["port" := PInt 51413]> ∅);
     gluetun_vpn := Sample.ok_json (<["status" := PStr "connected"]> ∅);
     transmission := fun n =>
       match n with
       | O => Replied (Sample.reply 409 (Some "tok0") "" Sample.no_json)
       | _ => Sample.ok_json (Sample.rpc ∅ None)
       end;
     portcheck := fun _ => Sample.body "1" |}.

(** The gateway answers the first request with status 500. *)
Definition w_gateway_500 : world :=
  {| gluetun_portforward :=
       Replied (Sample.reply 500 None "" (inr (<["port" := PInt 51413]> ∅)));
     gluetun_vpn := Sample.ok_json (<["status" := PStr "connected"]> ∅);
     transmission := Sample.daemon (PInt 51413) [];
     portcheck := fun _ => Sample.body "1" |}.

End Cases.

(** * Properties *)

(** ** Strings *)

Module StrFacts.
Import Str.

Lemma len_nonneg s : 0 <= len s.
Proof. unfold len. lia. Qed.

Lemma app_cons c (a b : string) : String c a ++ b = String c (a ++ b).
Proof. reflexivity. Qed.

Lemma app_nil_l (b : string) : "" ++ b = b.
Proof. reflexivity. Qed.

Lemma length_app (a b : string) :
  String.length (a ++ b) = (String.length a + String.length b)%nat.
Proof.
  induction a as [|c a IH]; [reflexivity|].
  rewrite app_cons. simpl. now rewrite IH.
Qed.

Lemma len_app (a b : string) : len (a ++ b) = len a + len b.
Proof. unfold len. rewrite length_app. lia. Qed.

Lemma len_cons c s : len (String c s) = 1 + len s.
Proof. unfold len. simpl String.length. lia. Qed.

Lemma len_empty : len "" = 0.
Proof. reflexivity. Qed.

Lemma length_take n s : String.length (take n s) = Nat.min n (String.length s).
Proof.
  revert s. induction n as [|n IH]; intros [|c s]; simpl; try reflexivity.
  now rewrite IH.
Qed.

Lemma take_all n s : (String.length s <= n)%nat -> take n s = s.
Proof.
  revert s. induction n as [|n IH]; intros [|c s]; simpl; intros H;
    try reflexivity; try lia.
  f_equal. apply IH. lia.
Qed.

Lemma len_slice_to s k : 0 <= k -> len (slice_to s k) = Z.min k (len s).
Proof.
  intros Hk. unfold slice_to.
  destruct (Z.ltb_spec k 0); [lia|].
  unfold len. rewrite length_take. lia.
Qed.

Lemma slice_to_all s k : len s <= k -> slice_to s k = s.
Proof.
  intros H. pose proof (len_nonneg s). unfold slice_to.
  destruct (Z.ltb_spec k 0); [lia|].
  apply take_all. unfold len in *. lia.
Qed.

Lemma slice_to_cons c s k :
  0 < k -> slice_to (String c s) k = String c (slice_to s (k - 1)).
Proof.
  intros Hk. unfold slice_to.
  destruct (Z.ltb_spec k 0); [lia|].
  destruct (Z.ltb_spec (k - 1) 0); [lia|].
  replace (Z.to_nat k) with (S (Z.to_nat (k - 1))) by lia.
  reflexivity.
Qed.

Lemma app_assoc (a b c : string) : (a ++ b) ++ c = a ++ b ++ c.
Proof.
  induction a as [|x a IH]; [reflexivity|].
  rewrite !app_cons. now rewrite IH.
Qed.

Lemma drop_app (a b : string) : drop (String.length a) (a ++ b) = b.
Proof.
  induction a as [|x a IH]; [now destruct b|].
  rewrite app_cons. simpl. exact IH.
Qed.

Lemma ends_with_app (a suffix : string) : ends_with suffix (a ++ suffix) = true.
Proof.
  unfold ends_with. rewrite length_app.
  replace (String.length a + String.length suffix - String.length suffix)%nat
    with (String.length a) by lia.
  rewrite drop_app, String.eqb_refl.
  rewrite andb_true_r. apply Nat.leb_le. lia.
Qed.

End StrFacts.

(** ** The bounded message *)

Section Bounded.
Import StrFacts.

Ltac split_ifs :=
  repeat match goal with
    | |- context [if ?a <=? ?b then _ else _] => destruct (Z.leb_spec a b)
    | |- context [if ?a <? ?b then _ else _] => destruct (Z.ltb_spec a b)
    | |- context [if truthy_dict ?o then _ else _] =>
        let E := fresh "E" in destruct (truthy_dict o) eqn:E
    | |- context [if truthy_str ?o then _ else _] =>
        let E := fresh "E" in destruct (truthy_str o) eqn:E
    end.

Ltac len_norm :=
  rewrite ?len_app, ?len_cons, ?len_empty in *;
  rewrite ?len_slice_to by lia;
  rewrite ?len_app, ?len_cons, ?len_empty;
  lia.

Lemma hc_message_le_100 (e : HealthcheckError) : Str.len (hc_message e) <= 100.
Proof.
  unfold hc_message. cbv zeta. split_ifs; try assumption; len_norm.
Qed.

Lemma fail_message_le_100 (x : exn) : Str.len (fail_message x) <= 100.
Proof.
  destruct x; simpl; try (rewrite len_slice_to by lia; lia).
  apply hc_message_le_100.
Qed.

Lemma hc_message_short (e : HealthcheckError) :
  Str.len (full_message e) <= 100 -> hc_message e = full_message e.
Proof.
  intros H. unfold hc_message. cbv zeta.
  destruct (Z.leb_spec (Str.len (full_message e)) 100); [reflexivity | lia].
Qed.

(** The torrent branch of [hc_message], entered when the two payloads
    tested before it are false and the full message is too long. *)
Lemma hc_message_torrent (e : HealthcheckError) :
  truthy_dict (portcheck_error e) = false ->
  truthy_dict (mismatch_ports e) = false ->
  truthy_dict (torrent e) = true ->
  100 < Str.len (full_message e) ->
  let prefix := message e ++ " T:" ++ field (torrent e) "id"
                  ++ "(" ++ field (torrent e) "name" ++ ")" in
  let reduced := message e ++ " T:" ++ field (torrent e) "id" in
  let tail := ": " ++ field (torrent e) "errorString" in
  hc_message e =
    if Str.len (prefix ++ tail) <=? 100 then prefix ++ tail
    else if 4 <? 100 - Str.len prefix then
      prefix ++ Str.slice_to tail (100 - Str.len prefix - 3) ++ "..."
    else if 4 <? 100 - Str.len reduced then
      reduced ++ Str.slice_to tail (100 - Str.len reduced - 3) ++ "..."
    else Str.slice_to reduced 100.
Proof.
  intros Hp Hm Ht Hfull. cbv zeta. unfold hc_message. cbv zeta.
  rewrite Hp, Hm, Ht.
  destruct (Z.leb_spec (Str.len (full_message e)) 100); [lia|].
  rewrite <- !app_assoc. reflexivity.
Qed.

Lemma hc_message_plain (e : HealthcheckError) :
  truthy_dict (portcheck_error e) = false ->
  truthy_dict (mismatch_ports e) = false ->
  truthy_dict (torrent e) = false ->
  100 < Str.len (full_message e) ->
  hc_message e = Str.slice_to (full_message e) 97 ++ "...".
Proof.
  intros Hp Hm Ht Hfull. unfold hc_message. cbv zeta.
  rewrite Hp, Hm, Ht.
  destruct (Z.leb_spec (Str.len (full_message e)) 100); [lia | reflexivity].
Qed.

End Bounded.

(** C2. The message sent with a "fail" ping is at most 100 characters long:
    [hc_message] for every [HealthcheckError], whatever its payloads, its
    message and its context, and the cut message of any other exception. *)
Theorem C2_bounded_message_at_most_100 :
  (forall e : HealthcheckError, Str.len (hc_message e) <= 100) /\
  (forall x : exn, Str.len (fail_message x) <= 100).
Proof. split; [apply hc_message_le_100 | apply fail_message_le_100]. Qed.

(** C8. When the full message of a failure is at most 100 characters long,
    the bounded message is the full message.  For a [HealthcheckError] the
    two are [hc_message] and [full_message]. *)
Theorem C8_short_message_unchanged (x : exn) :
  Str.len (exn_str x) <= 100 ->
  fail_message x = exn_str x /\
  forall e, x = ExHealthcheck e -> hc_message e = full_message e.
Proof.
  intros H. split.
  - destruct x; simpl in *; try (apply StrFacts.slice_to_all; exact H).
    apply hc_message_short, H.
  - intros e ->. apply hc_message_short, H.
Qed.

Lemma C8_short_message_unchanged_witness :
  Str.len (exn_str (ExHealthcheck Sample.mismatch)) <= 100 /\
  fail_message (ExHealthcheck Sample.mismatch)
  = "E:MISMATCH(G:51413|T:60000) | P:60000(OPEN) VPN:connected | DL/UL:0/0 | Act:1".
Proof.
  assert (H : Str.len (exn_str (ExHealthcheck Sample.mismatch)) <= 100)
    by (vm_compute; discriminate).
  split; [exact H|].
  rewrite (proj1 (C8_short_message_unchanged _ H)).
  vm_compute. reflexivity.
Defined.

(** C5. A failure carrying a torrent, whose full message is longer than 100
    characters, is rendered as code, [ T:id(name)] and [: errorString].
    When that is too long and the prefix with id and name leaves more than
    4 characters, only the tail is cut and closed by an ellipsis; otherwise
    the name is dropped and the same cut is tried on the prefix with the id
    alone; otherwise that prefix is cut at 100 characters.  For id 42, a
    name of 90 characters and an error string of 50, raised with the code
    [E:SYS_ERR], the message holds [T:42], ends with the ellipsis and is at
    most 100 characters long. *)
Theorem C5_torrent_truncation (e : HealthcheckError) :
  truthy_dict (portcheck_error e) = false ->
  truthy_dict (mismatch_ports e) = false ->
  truthy_dict (torrent e) = true ->
  100 < Str.len (full_message e) ->
  let id := field (torrent e) "id" in
  let name := field (torrent e) "name" in
  let errorString := field (torrent e) "errorString" in
  let prefix := message e ++ " T:" ++ id ++ "(" ++ name ++ ")" in
  let reduced := message e ++ " T:" ++ id in
  let tail := ": " ++ errorString in
  let usable := 100 - Str.len prefix in
  let usable' := 100 - Str.len reduced in
  (Str.len (prefix ++ tail) <= 100 -> hc_message e = prefix ++ tail) /\
  (100 < Str.len (prefix ++ tail) -> 4 < usable ->
   hc_message e = prefix ++ Str.slice_to tail (usable - 3) ++ "..." /\
   hc_message e
   = prefix ++ ": " ++ Str.slice_to errorString (usable - 5) ++ "...") /\
  (100 < Str.len (prefix ++ tail) -> usable <= 4 -> 4 < usable' ->
   hc_message e = reduced ++ Str.slice_to tail (usable' - 3) ++ "..." /\
   hc_message e
   = reduced ++ ": " ++ Str.slice_to errorString (usable' - 5) ++ "...") /\
  (100 < Str.len (prefix ++ tail) -> usable <= 4 -> usable' <= 4 ->
   hc_message e = Str.slice_to reduced 100) /\
  (message e = "E:SYS_ERR" -> id = "42" ->
   Str.len name = 90 -> Str.len errorString = 50 ->
   hc_message e = "E:SYS_ERR T:42: " ++ errorString ++ "..." /\
   Str.contains "T:42" (hc_message e) = true /\
   Str.ends_with "..." (hc_message e) = true /\
   Str.len (hc_message e) <= 100).
Proof.
  intros Hp Hm Ht Hfull id name errorString prefix reduced tail usable usable'.
  pose proof (hc_message_torrent e Hp Hm Ht Hfull) as Heq. cbv zeta in Heq.
  fold id name errorString in Heq. fold prefix reduced tail in Heq.
  fold usable usable' in Heq.
  assert (Hcase3 : 100 < Str.len (prefix ++ tail) -> usable <= 4 -> 4 < usable' ->
    hc_message e = reduced ++ Str.slice_to tail (usable' - 3) ++ "...").
  { intros H1 H2 H3. rewrite Heq.
    destruct (Z.leb_spec (Str.len (prefix ++ tail)) 100); [lia|].
    destruct (Z.ltb_spec 4 usable); [lia|].
    destruct (Z.ltb_spec 4 usable'); [reflexivity | lia]. }
  assert (Htail : forall k, 4 < k ->
    Str.slice_to tail (k - 3) = ": " ++ Str.slice_to errorString (k - 5)).
  { intros k Hk. subst tail.
    change (": " ++ errorString) with (String ":" (String " " errorString)).
    rewrite !StrFacts.slice_to_cons by lia.
    replace (k - 3 - 1 - 1) with (k - 5) by lia. reflexivity. }
  split; [| split; [| split; [| split]]].
  - intros H. rewrite Heq.
    destruct (Z.leb_spec (Str.len (prefix ++ tail)) 100); [reflexivity | lia].
  - intros H1 H2.
    assert (Hcase2 : hc_message e
                     = prefix ++ Str.slice_to tail (usable - 3) ++ "...").
    { rewrite Heq.
      destruct (Z.leb_spec (Str.len (prefix ++ tail)) 100); [lia|].
      destruct (Z.ltb_spec 4 usable); [reflexivity | lia]. }
    split; [exact Hcase2|].
    rewrite Hcase2, (Htail usable H2), StrFacts.app_assoc. reflexivity.
  - intros H1 H2 H3. split; [now apply Hcase3|].
    rewrite Hcase3, (Htail usable' H3), StrFacts.app_assoc by assumption.
    reflexivity.
  - intros H1 H2 H3. rewrite Heq.
    destruct (Z.leb_spec (Str.len (prefix ++ tail)) 100); [lia|].
    destruct (Z.ltb_spec 4 usable); [lia|].
    destruct (Z.ltb_spec 4 usable'); [lia | reflexivity].
  - intros Hcode Hid Hname Herr.
    assert (Hlen : Str.len prefix = 106 /\ Str.len reduced = 14 /\ Str.len tail = 52).
    { subst prefix reduced tail. rewrite Hcode, Hid.
      rewrite ?StrFacts.len_app, ?StrFacts.len_cons, ?StrFacts.len_empty. lia. }
    destruct Hlen as (L1 & L2 & L3).
    assert (Hmsg : hc_message e = "E:SYS_ERR T:42: " ++ errorString ++ "...").
    { rewrite Hcase3; [| rewrite StrFacts.len_app | |];
        try (subst usable usable'; lia).
      rewrite StrFacts.slice_to_all by (subst usable'; lia).
      subst reduced tail. rewrite Hcode, Hid. reflexivity. }
    split; [exact Hmsg|]. rewrite Hmsg. split; [reflexivity|]. split.
    + change ("E:SYS_ERR T:42: " ++ errorString ++ "...")
        with ("E:SYS_ERR T:42: " ++ (errorString ++ "...")).
      rewrite <- StrFacts.app_assoc. apply StrFacts.ends_with_app.
    + rewrite !StrFacts.len_app, Herr.
      rewrite ?StrFacts.len_cons, ?StrFacts.len_empty. lia.
Qed.

Lemma C5_torrent_truncation_witness :
  100 < Str.len (full_message Sample.sys_err) /\
  hc_message Sample.sys_err = "E:SYS_ERR T:42: " ++ Sample.times "e" 50 ++ "..." /\
  Str.contains "T:42" (hc_message Sample.sys_err) = true /\
  Str.ends_with "..." (hc_message Sample.sys_err) = true /\
  Str.len (hc_message Sample.sys_err) <= 100.
Proof.
  assert (Hfull : 100 < Str.len (full_message Sample.sys_err))
    by (vm_compute; reflexivity).
  split; [exact Hfull|].
  apply (C5_torrent_truncation Sample.sys_err);
    solve [ reflexivity | vm_compute; reflexivity | exact Hfull ].
Defined.

(** C7 (as amended). A [HealthcheckError] with no port-check, mismatch or
    torrent payload, whose full message is longer than 100 characters, is
    sent as the first 97 characters of the full message followed by
    ["..."].  An exception that is not a [HealthcheckError] is sent as the
    first 100 characters of its message, with no ellipsis. *)
Theorem C7_plain_and_unexpected_failures :
  (forall e : HealthcheckError,
     truthy_dict (portcheck_error e) = false ->
     truthy_dict (mismatch_ports e) = false ->
     truthy_dict (torrent e) = false ->
     100 < Str.len (full_message e) ->
     fail_message (ExHealthcheck e) = Str.slice_to (full_message e) 97 ++ "..." /\
     Str.len (fail_message (ExHealthcheck e)) = 100) /\
  (forall x : exn,
     (forall e, x <> ExHealthcheck e) ->
     fail_message x = Str.slice_to (exn_str x) 100).
Proof.
  split.
  - intros e Hp Hm Ht Hfull. simpl.
    rewrite (hc_message_plain e Hp Hm Ht Hfull). split; [reflexivity|].
    rewrite StrFacts.len_app, StrFacts.len_slice_to by lia.
    rewrite ?StrFacts.len_cons, ?StrFacts.len_empty. lia.
  - intros x Hx. destruct x; try reflexivity.
    exfalso. now apply (Hx e).
Qed.

Lemma C7_plain_and_unexpected_failures_witness :
  100 < Str.len (full_message Sample.long_plain) /\
  fail_message (ExHealthcheck Sample.long_plain)
  = "E:CLOSED | " ++ Sample.times "c" 86 ++ "...".
Proof.
  assert (Hfull : 100 < Str.len (full_message Sample.long_plain))
    by (vm_compute; reflexivity).
  split; [exact Hfull|].
  rewrite (proj1 (proj1 C7_plain_and_unexpected_failures Sample.long_plain
                    eq_refl eq_refl eq_refl Hfull)).
  vm_compute. reflexivity.
Defined.

(** The pass in which the gateway cannot be reached ends in an exception
    that is not a [HealthcheckError], with a message of more than 100
    characters; the "fail" ping carries its first 100 characters, which is
    not the first 97 followed by an ellipsis. *)
Lemma C7_counterexample :
  let st := emit (EvPing "start" "") Sample.fresh in
  fst (cycle_body Sample.w_gateway_down st)
  = inl (ExRequest "ConnectionError" Sample.refused) /\
  diagnosis_of (fst (cycle_body Sample.w_gateway_down st)) = Unclassified /\
  100 < Str.len Sample.refused /\
  trace (cycle Sample.w_gateway_down Sample.fresh)
  = [EvPing "start" ""; EvGluetunGet "/v1/portforward";
     EvPing "fail" (Str.slice_to Sample.refused 100); EvNewSession] /\
  Str.slice_to Sample.refused 100 <> Str.slice_to Sample.refused 97 ++ "...".
Proof.
  cbv zeta. repeat split; try (vm_compute; reflexivity).
  apply String.eqb_neq. vm_compute. reflexivity.
Qed.

(** ** The external port check *)

Section Probe.

Lemma raise_for_status_class {J} (r : response J) e :
  raise_for_status r = inl e -> exn_class e = "HTTPError".
Proof.
  unfold raise_for_status. intros H.
  destruct (_ && _) in H; [now inversion H|].
  destruct (_ && _) in H; [now inversion H | discriminate].
Qed.

Lemma raise_for_status_error {J} (r : response J) :
  400 <= status_code r < 600 -> exists e, raise_for_status r = inl e.
Proof.
  intros [Hlo Hhi]. unfold raise_for_status.
  destruct (Z.leb_spec 400 (status_code r)); [|lia].
  destruct (Z.ltb_spec (status_code r) 500); simpl; [eauto|].
  destruct (Z.leb_spec 500 (status_code r)); [|lia].
  destruct (Z.ltb_spec (status_code r) 600); simpl; [eauto | lia].
Qed.

Lemma raise_for_status_pass {J} (r : response J) :
  ~ 400 <= status_code r < 600 -> raise_for_status r = inr tt.
Proof.
  intros H. unfold raise_for_status.
  destruct (Z.leb_spec 400 (status_code r)), (Z.ltb_spec (status_code r) 500),
    (Z.leb_spec 500 (status_code r)), (Z.ltb_spec (status_code r) 600);
    simpl; try reflexivity; lia.
Qed.

(** An error dict comes with [None], never with [False]. *)
Lemma check_external_port_error requests_get port err :
  snd (check_external_port requests_get port) = Some err ->
  fst (check_external_port requests_get port) = None /\
  err <> ∅ /\ is_Some (err !! "error").
Proof.
  unfold check_external_port.
  destruct (requests_get _) as [cls msg | r].
  - simpl. intros [= <-]. split; [reflexivity|]. split.
    + apply insert_non_empty.
    + rewrite lookup_insert_eq. eauto.
  - destruct (raise_for_status r).
    + simpl. intros [= <-]. split; [reflexivity|]. split.
      * apply insert_non_empty.
      * rewrite lookup_insert_eq. eauto.
    + cbv zeta.
      destruct (String.eqb _ "1"); [discriminate|].
      destruct (String.eqb _ "0"); [discriminate|].
      simpl. intros [= <-]. split; [reflexivity|]. split.
      * apply insert_non_empty.
      * rewrite lookup_insert_eq. eauto.
Qed.

Lemma check_external_port_no_error requests_get port :
  snd (check_external_port requests_get port) = None ->
  is_Some (fst (check_external_port requests_get port)).
Proof.
  unfold check_external_port.
  destruct (requests_get _) as [cls msg | r]; [discriminate|].
  destruct (raise_for_status r); [discriminate|]. cbv zeta.
  destruct (String.eqb _ "1"); [simpl; eauto|].
  destruct (String.eqb _ "0"); [simpl; eauto | discriminate].
Qed.

End Probe.

(** ** One pass *)

Section Cycle.

Lemma cycle_body_gather w st d st1 :
  gather w st = (inr d, st1) ->
  cycle_body w st =
    match perform_checks d with
    | inl e => (inl e, st1)
    | inr ctx => (inr ctx, emit (EvPing "success" ("OK | " ++ ctx)) st1)
    end.
Proof.
  intros H. unfold cycle_body, bind, lift. rewrite H.
  destruct (perform_checks d); reflexivity.
Qed.

Lemma outcome_gather w st d st1 :
  gather w st = (inr d, st1) ->
  diagnosis_of (fst (cycle_body w st)) = diagnosis_of (perform_checks d).
Proof.
  intros H. rewrite (cycle_body_gather _ _ _ _ H).
  destruct (perform_checks d); reflexivity.
Qed.

Ltac break_match H :=
  match type of H with
  | context [match ?x with _ => _ end] =>
      let E := fresh "E" in destruct x eqn:E; try discriminate H
  end.

(** What holds of the data once [gather] has returned. *)
Lemma gather_inv w st d st1 :
  gather w st = (inr d, st1) ->
  truthy (gluetun_port d) = true /\
  truthy (gluetun_vpn_status d) = true /\
  transmission_port d <> PNone /\
  (port_status_bool d, port_check_error d)
  = check_external_port (portcheck w) (transmission_port d) /\
  Forall (fun t => py_eq (get t "error") (PInt 3) = true)
    (system_error_torrents d).
Proof.
  unfold gather, bind. intros H.
  repeat break_match H.
  all: inversion H; subst; clear H; simpl.
  all: match goal with
       | E : negb (_ && _) = false |- _ =>
           apply negb_false_iff, andb_true_iff in E; destruct E as [-> ->]
       end.
  all: repeat split; try discriminate; try congruence.
  all: apply List.Forall_forall; intros t Ht; apply filter_In in Ht; apply Ht.
Qed.

Lemma truthy_dict_some (err : dict) : err <> ∅ -> truthy_dict (Some err) = true.
Proof.
  intros H. unfold truthy_dict. now rewrite bool_decide_eq_false_2.
Qed.

(** The checks of [main] decide as the priority table does, for a pair
    that [check_external_port] can return. *)
Lemma perform_checks_diagnosis d :
  (forall err, port_check_error d = Some err -> err <> ∅) ->
  diagnosis_of (perform_checks d)
  = spec_diagnosis (probe_result (port_status_bool d, port_check_error d))
      (negb (py_eq (gluetun_port d) (transmission_port d)))
      (length (system_error_torrents d)).
Proof.
  intros Herr. unfold perform_checks. cbv zeta.
  destruct (port_check_error d) as [err|] eqn:Epc.
  - rewrite truthy_dict_some by now apply Herr.
    destruct (port_status_bool d) as [[|]|]; reflexivity.
  - simpl truthy_dict. cbv iota.
    destruct (negb (py_eq _ _)), (port_status_bool d) as [[|]|];
      try reflexivity.
    destruct (system_error_torrents d); reflexivity.
Qed.

Lemma gather_probe_error w st d st1 err :
  gather w st = (inr d, st1) ->
  port_check_error d = Some err ->
  port_status_bool d = None /\ err <> ∅.
Proof.
  intros H Hpc. destruct (gather_inv _ _ _ _ H) as (_ & _ & _ & Hprobe & _).
  destruct (check_external_port_error (portcheck w) (transmission_port d) err)
    as (Hb & Hne & _).
  - now rewrite <- Hprobe.
  - rewrite <- Hprobe in Hb. now split.
Qed.

End Cycle.

(** C1 (as amended). Once the data of a pass is gathered, the outcome is
    decided in priority order and the first match wins: an Indeterminate
    probe gives PortCheckFailure, then differing ports give PortMismatch,
    then a Closed probe gives PortClosed, then a torrent in system error
    gives SystemErrorTorrent, and otherwise the pass succeeds.  With both
    differing ports and a torrent in system error the outcome is never
    SystemErrorTorrent: it is PortMismatch when the probe is Open or
    Closed, and PortCheckFailure when the probe is Indeterminate. *)
Theorem C1_priority_order (w : world) (st st1 : state) (d : cycle_data) :
  gather w st = (inr d, st1) ->
  let probe := probe_result
                 (check_external_port (portcheck w) (transmission_port d)) in
  let mismatch := negb (py_eq (gluetun_port d) (transmission_port d)) in
  let outcome := diagnosis_of (fst (cycle_body w st)) in
  outcome = spec_diagnosis probe mismatch (length (system_error_torrents d)) /\
  (mismatch = true -> system_error_torrents d <> [] ->
   outcome <> SystemErrorTorrent /\
   ((probe = Open \/ probe = Closed) -> outcome = PortMismatch) /\
   (forall reason detail,
      probe = Indeterminate reason detail -> outcome = PortCheckFailure)).
Proof.
  intros H probe mismatch outcome.
  assert (Hout : outcome
                 = spec_diagnosis probe mismatch (length (system_error_torrents d))).
  { subst outcome probe mismatch. rewrite (outcome_gather _ _ _ _ H).
    destruct (gather_inv _ _ _ _ H) as (_ & _ & _ & <- & _).
    apply perform_checks_diagnosis.
    intros err Herr. now destruct (gather_probe_error _ _ _ _ _ H Herr). }
  split; [exact Hout|].
  intros Hm Hsys. rewrite Hout, Hm.
  repeat split.
  - destruct probe; discriminate.
  - intros [-> | ->]; reflexivity.
  - intros reason detail ->. reflexivity.
Qed.

Lemma C1_priority_order_witness :
  gather Sample.w_mismatch Sample.fresh
  = (inr Sample.mismatch_data, Sample.gathered (PInt 60000)) /\
  diagnosis_of (fst (cycle_body Sample.w_mismatch Sample.fresh)) = PortMismatch.
Proof.
  assert (H : gather Sample.w_mismatch Sample.fresh
              = (inr Sample.mismatch_data, Sample.gathered (PInt 60000)))
    by (vm_compute; reflexivity).
  split; [exact H|].
  rewrite (proj1 (C1_priority_order _ _ _ _ H)).
  vm_compute. reflexivity.
Defined.

(** In the world where the ports differ, a torrent is in system error and
    the port check times out, the outcome is PortCheckFailure, not
    PortMismatch. *)
Lemma C1_counterexample :
  gather Sample.w_all_wrong Sample.fresh
  = (inr Sample.all_wrong_data, Sample.gathered (PInt 60000)) /\
  py_eq (gluetun_port Sample.all_wrong_data)
    (transmission_port Sample.all_wrong_data) = false /\
  system_error_torrents Sample.all_wrong_data = [Sample.bad_torrent] /\
  diagnosis_of (fst (cycle_body Sample.w_all_wrong Sample.fresh))
  = PortCheckFailure /\
  diagnosis_of (fst (cycle_body Sample.w_all_wrong Sample.fresh))
  <> PortMismatch.
Proof.
  repeat split; try (vm_compute; reflexivity).
  vm_compute. discriminate.
Qed.

(** C6. In a pass whose probe is Indeterminate the error raised is a
    PortCheckFailure, and the context attached to it shows the port as
    "CLOSED", exactly as it would for a Closed probe. *)
Theorem C6_indeterminate_shown_closed (w : world) (st st1 : state)
    (d : cycle_data) (reason detail : string) :
  gather w st = (inr d, st1) ->
  probe_result (check_external_port (portcheck w) (transmission_port d))
  = Indeterminate reason detail ->
  exists e,
    cycle_body w st = (inl (ExHealthcheck e), st1) /\
    diagnosis_of (fst (cycle_body w st)) = PortCheckFailure /\
    portcheck_error e = port_check_error d /\
    diag_context e
    = Some ("P:" ++ py_str (transmission_port d) ++ "(CLOSED) VPN:"
              ++ py_str (gluetun_vpn_status d)
              ++ " | DL/UL:" ++ py_str (dl_speed d) ++ "/" ++ py_str (ul_speed d)
              ++ " | Act:" ++ py_str (active_count d)) /\
    diag_context e = Some (diagnostic_context (set_probe d port_closed)).
Proof.
  intros H Hprobe.
  destruct (gather_inv _ _ _ _ H) as (_ & _ & _ & Hpair & _).
  rewrite <- Hpair in Hprobe.
  destruct (port_check_error d) as [err|] eqn:Epc.
  2:{ simpl in Hprobe. destruct (port_status_bool d) as [[|]|]; discriminate. }
  destruct (gather_probe_error _ _ _ _ _ H Epc) as [Hb Hne].
  rewrite (cycle_body_gather _ _ _ _ H).
  unfold perform_checks. cbv zeta. rewrite Epc, truthy_dict_some by exact Hne.
  eexists. split; [reflexivity|]. split; [reflexivity|]. split; [reflexivity|].
  simpl. unfold diagnostic_context, port_status_str. rewrite Hb.
  split; reflexivity.
Qed.

Lemma C6_indeterminate_shown_closed_witness :
  gather Sample.w_all_wrong Sample.fresh
  = (inr Sample.all_wrong_data, Sample.gathered (PInt 60000)) /\
  exists e,
    cycle_body Sample.w_all_wrong Sample.fresh
    = (inl (ExHealthcheck e), Sample.gathered (PInt 60000)) /\
    diag_context e
    = Some "P:60000(CLOSED) VPN:connected | DL/UL:0/0 | Act:1".
Proof.
  assert (H : gather Sample.w_all_wrong Sample.fresh
              = (inr Sample.all_wrong_data, Sample.gathered (PInt 60000)))
    by (vm_compute; reflexivity).
  split; [exact H|].
  destruct (C6_indeterminate_shown_closed _ _ _ _ "E:PORTCHECK_DOWN"
              "ConnectTimeout" H eq_refl) as (e & Hrun & _ & _ & Hctx & _).
  exists e. split; [exact Hrun | exact Hctx].
Defined.

(** C9. When both gateway replies decode but the port or the status is
    false in Python's sense (the field is absent and [get] gives [None], or
    it is [null], 0, [false] or the empty string), the pass raises the one
    [E:GLUETUN_PARSE] error right after the two gateway requests: nothing
    is sent to the daemon.  So the data that reach the checks never hold a
    gateway port of 0. *)
Theorem C9_falsy_gateway_fields (w : world) (st : state)
    (r1 r2 : response dict) (d1 d2 : dict) :
  gluetun_portforward w = Replied r1 -> raise_for_status r1 = inr tt ->
  json r1 = inr d1 ->
  gluetun_vpn w = Replied r2 -> raise_for_status r2 = inr tt ->
  json r2 = inr d2 ->
  truthy (get d1 "port") = false \/ truthy (get d2 "status") = false ->
  let parse_error := plain_error
    "E:GLUETUN_PARSE | Missing 'port' or 'status' in Gluetun API response" None in
  cycle_body w st
  = (inl (ExHealthcheck parse_error),
     {| headers := headers st; sent := sent st;
        trace := trace st ++ [EvGluetunGet "/v1/portforward";
                              EvGluetunGet "/v1/vpn/status"] |}) /\
  diagnosis_of (fst (cycle_body w st)) = ParseError /\
  fail_message (ExHealthcheck parse_error)
  = "E:GLUETUN_PARSE | Missing 'port' or 'status' in Gluetun API response" /\
  (forall d st1, gather w st = (inr d, st1) -> False) /\
  (forall w' st' d st1,
     gather w' st' = (inr d, st1) ->
     gluetun_port d <> PInt 0 /\ gluetun_vpn_status d <> PStr "").
Proof.
  intros Hp1 Hs1 Hj1 Hp2 Hs2 Hj2 Hfalsy parse_error.
  assert (Hg : gather w st
               = (inl (ExHealthcheck parse_error),
                  {| headers := headers st; sent := sent st;
                     trace := trace st ++ [EvGluetunGet "/v1/portforward";
                                           EvGluetunGet "/v1/vpn/status"] |})).
  { unfold gather, bind, gluetun_get, response_json.
    rewrite Hp1, Hs1, Hj1, Hp2, Hs2, Hj2.
    assert (Hall : negb (truthy (get d1 "port") && truthy (get d2 "status")) = true).
    { destruct Hfalsy as [-> | ->]; [reflexivity|].
      now rewrite andb_false_r. }
    rewrite Hall. unfold raise, emit. simpl.
    rewrite <- app_assoc. reflexivity. }
  assert (Hc : cycle_body w st
               = (inl (ExHealthcheck parse_error),
                  {| headers := headers st; sent := sent st;
                     trace := trace st ++ [EvGluetunGet "/v1/portforward";
                                           EvGluetunGet "/v1/vpn/status"] |})).
  { unfold cycle_body, bind. now rewrite Hg. }
  split; [exact Hc|]. rewrite Hc.
  split; [reflexivity|]. split; [reflexivity|]. split.
  - intros d st1 Hd. rewrite Hg in Hd. discriminate.
  - intros w' st' d st1 Hd.
    destruct (gather_inv _ _ _ _ Hd) as (Hport & Hstatus & _).
    split; intros E; [rewrite E in Hport | rewrite E in Hstatus]; discriminate.
Qed.

Lemma C9_falsy_gateway_fields_witness :
  truthy (get (<["port" := PInt 0]> ∅) "port") = false /\
  trace (snd (cycle_body Sample.w_port_zero Sample.fresh))
  = [EvGluetunGet "/v1/portforward"; EvGluetunGet "/v1/vpn/status"] /\
  fst (cycle_body Sample.w_port_zero Sample.fresh)
  = inl (ExHealthcheck (plain_error
      "E:GLUETUN_PARSE | Missing 'port' or 'status' in Gluetun API response" None)).
Proof.
  assert (H : truthy (get (<["port" := PInt 0]> ∅) "port") = false)
    by (vm_compute; reflexivity).
  split; [exact H|].
  rewrite (proj1 (C9_falsy_gateway_fields Sample.w_port_zero Sample.fresh
                    _ _ _ _ eq_refl eq_refl eq_refl eq_refl eq_refl eq_refl
                    (or_introl H))).
  split; reflexivity.
Defined.

(** C4 (as amended). For a reply whose status is not an error status, the
    probe is Open exactly when the body, stripped of surrounding white
    space, is "1", Closed exactly when the stripped body is "0", and
    otherwise Indeterminate with [E:PORTCHECK_UNEXPECTED_RESP] and the
    stripped body.  A request that raises gives Indeterminate with
    [E:PORTCHECK_DOWN] and the class name of the exception.  An
    Indeterminate result comes with [None], never with [False], and the
    pass that holds it raises a PortCheckFailure, never PortClosed. *)
Theorem C4_probe_tri_state (requests_get : string -> http_result unit)
    (port : pyval) :
  let result := check_external_port requests_get port in
  (forall r,
     requests_get (portcheck_url port) = Replied r ->
     raise_for_status r = inr tt ->
     let content := Str.strip (text r) in
     (result = port_open <-> content = "1") /\
     (result = port_closed <-> content = "0") /\
     (content <> "1" -> content <> "0" ->
      result = portcheck_unexpected content /\
      probe_result result
      = Indeterminate "E:PORTCHECK_UNEXPECTED_RESP" content)) /\
  (forall cls msg,
     requests_get (portcheck_url port) = Raised cls msg ->
     result = portcheck_down cls /\
     probe_result result = Indeterminate "E:PORTCHECK_DOWN" cls) /\
  (forall reason detail,
     probe_result result = Indeterminate reason detail ->
     fst result = None /\ result <> port_closed /\
     forall d,
       (port_status_bool d, port_check_error d) = result ->
       diagnosis_of (perform_checks d) = PortCheckFailure).
Proof.
  intros result. split; [| split].
  - intros r Hr Hok content. subst result. unfold check_external_port.
    rewrite Hr, Hok. cbv zeta. fold content.
    destruct (String.eqb_spec content "1") as [E1|E1].
    { rewrite E1. repeat split; try reflexivity; try discriminate; congruence. }
    destruct (String.eqb_spec content "0") as [E0|E0].
    { rewrite E0. repeat split; try reflexivity; try discriminate; congruence. }
    repeat split; try discriminate; try congruence.
  - intros cls msg Hr. subst result. unfold check_external_port.
    rewrite Hr. split; reflexivity.
  - intros reason detail Hi.
    destruct result as [b [err|]] eqn:Eres.
    2:{ destruct b as [[|]|]; discriminate. }
    destruct (check_external_port_error requests_get port err) as (Hb & Hne & _).
    { fold result. now rewrite Eres. }
    fold result in Hb. rewrite Eres in Hb. simpl in Hb. subst b.
    split; [reflexivity|]. split; [discriminate|].
    intros d [= Hb Hpc]. rewrite perform_checks_diagnosis.
    + now rewrite Hb, Hpc.
    + intros err' Herr'. congruence.
Qed.

Lemma C4_probe_tri_state_witness :
  let requests_get := fun _ : string => Sample.body (" 1" ++ Sample.newline) in
  raise_for_status (Sample.reply (J := unit) 200 None (" 1" ++ Sample.newline) (inr tt))
  = inr tt /\
  Str.strip (" 1" ++ Sample.newline) = "1" /\
  check_external_port requests_get (PInt 51413) = port_open.
Proof.
  cbv zeta. split; [reflexivity|]. split; [reflexivity|].
  apply (proj1 (proj1 (C4_probe_tri_state
                         (fun _ => Sample.body (" 1" ++ Sample.newline))
                         (PInt 51413)) _ eq_refl eq_refl)).
  reflexivity.
Defined.

(** A body of "1" followed by a line feed is not the body "1", and the
    probe is Open; a body of " banana " gives the detail "banana", not the
    body; and the body "1" under status 503 gives Indeterminate. *)
Lemma C4_counterexample :
  text (Sample.reply (J := unit) 200 None ("1" ++ Sample.newline) (inr tt)) <> "1" /\
  check_external_port (fun _ => Sample.body ("1" ++ Sample.newline)) (PInt 51413)
  = port_open /\
  check_external_port (fun _ => Sample.body " banana ") (PInt 51413)
  = portcheck_unexpected "banana" /\
  check_external_port
    (fun _ => Replied (Sample.reply 503 None "1" (inr tt))) (PInt 51413)
  = portcheck_down "HTTPError".
Proof.
  repeat split; try (vm_compute; reflexivity).
  vm_compute. discriminate.
Qed.

(** C10 (as amended). A reply with a 4xx or 5xx status makes the probe
    Indeterminate with [E:PORTCHECK_DOWN] and the class name [HTTPError],
    whatever the body: it is neither an unexpected response nor Closed.
    [raise_for_status] lets any other status through, and the body then
    decides. *)
Theorem C10_http_error_is_service_down (requests_get : string -> http_result unit)
    (port : pyval) (r : response unit) :
  requests_get (portcheck_url port) = Replied r ->
  let result := check_external_port requests_get port in
  (400 <= status_code r < 600 ->
   result = portcheck_down "HTTPError" /\
   probe_result result = Indeterminate "E:PORTCHECK_DOWN" "HTTPError" /\
   result <> port_closed /\
   forall content, result <> portcheck_unexpected content) /\
  (~ 400 <= status_code r < 600 ->
   result = if String.eqb (Str.strip (text r)) "1" then port_open
            else if String.eqb (Str.strip (text r)) "0" then port_closed
            else portcheck_unexpected (Str.strip (text r))).
Proof.
  intros Hr result. subst result. unfold check_external_port. rewrite Hr.
  split.
  - intros Hst. destruct (raise_for_status_error r Hst) as [e He].
    rewrite He, (raise_for_status_class r e He).
    split; [reflexivity|]. split; [reflexivity|]. split; [discriminate|].
    intros content Hne.
    apply (f_equal (fun p : option bool * option dict =>
                      match snd p with
                      | Some m => m !! "error"
                      | None => None
                      end)) in Hne.
    unfold portcheck_down, portcheck_unexpected in Hne. cbn [snd] in Hne.
    rewrite !lookup_insert_eq in Hne. discriminate.
  - intros Hst. now rewrite (raise_for_status_pass r Hst).
Qed.

Lemma C10_http_error_is_service_down_witness :
  400 <= 503 < 600 /\
  check_external_port
    (fun _ => Replied (Sample.reply 503 None "0" (inr tt))) (PInt 51413)
  = portcheck_down "HTTPError".
Proof.
  assert (H : 400 <= 503 < 600) by lia.
  split; [exact H|].
  apply (proj1 (C10_http_error_is_service_down
                  (fun _ => Replied (Sample.reply 503 None "0" (inr tt)))
                  (PInt 51413) _ eq_refl)).
  exact H.
Defined.

(** Status 304 is not a 2xx status; with the body "0" the probe is Closed. *)
Lemma C10_counterexample :
  let r := Sample.reply (J := unit) 304 None "0" (inr tt) in
  ~ 200 <= status_code r < 300 /\
  check_external_port (fun _ => Replied r) (PInt 51413) = port_closed /\
  probe_result (check_external_port (fun _ => Replied r) (PInt 51413)) = Closed.
Proof.
  cbv zeta. split; [simpl; lia|]. split; vm_compute; reflexivity.
Qed.

(** ** The RPC call *)

Lemma raise_for_status_409 {J} (r : response J) :
  status_code r = 409 ->
  raise_for_status r
  = inl (ExHTTPError 409 (session_id_header r)
           ("409 Client Error: " ++ reason r ++ " for url: " ++ url r)).
Proof. intros H. unfold raise_for_status. rewrite H. reflexivity. Qed.

Lemma truthy_str_some (s : string) : s <> "" -> truthy_str (Some s) = true.
Proof.
  intros H. unfold truthy_str. now destruct (String.eqb_spec s "").
Qed.

(** Each run of the three statements sends one request. *)
Lemma post_rpc_sent w method st :
  sent (snd (post_rpc w method st)) = S (sent st).
Proof.
  unfold post_rpc, bind, session_post, lift.
  destruct (transmission w (sent st)) as [cls msg | r]; [reflexivity|].
  destruct (raise_for_status r); [reflexivity|].
  destruct (response_json r); reflexivity.
Qed.

(** A call sends one POST or two, whatever the daemon answers. *)
Lemma run_transmission_rpc_sent w method st st1 :
  attach_session_id w st = (inr tt, st1) ->
  sent (snd (run_transmission_rpc w method st)) = S (sent st1) \/
  sent (snd (run_transmission_rpc w method st)) = S (S (sent st1)).
Proof.
  intros Hattach.
  remember (run_transmission_rpc w method st) as res eqn:Hres.
  unfold run_transmission_rpc, bind at 1 in Hres. rewrite Hattach in Hres.
  unfold try_except in Hres.
  pose proof (post_rpc_sent w method st1) as H1.
  destruct (post_rpc w method st1) as [[e|j] st2]; simpl in H1;
    [| subst res; now left].
  destruct e; try (subst res; now left).
  destruct (status =? 409); [| subst res; now left].
  destruct session_id as [id|]; [| subst res; now left].
  destruct (truthy_str (Some id)); [| subst res; now left].
  right. subst res. unfold bind, headers_update.
  rewrite post_rpc_sent. simpl. now rewrite H1.
Qed.

(** C3. Take a call whose session holds a token once the "first time"
    step is done, and whose first POST is answered by status 409 with a
    fresh token in the header.  The call stores that token (one header
    update) and sends the request once more (one further POST).  If the
    second answer decodes, its JSON is returned.  If the second answer is
    409 again, the [HTTPError] of that answer is raised, which is the
    specification's [RpcError]; the token is left as it was after the one
    update and nothing more is sent.  Whatever the answers, the call never
    sends a third POST. *)
Theorem C3_token_renewal (w : world) (method : string) (st st1 : state)
    (r1 : response rpc_json) (tok : string) :
  attach_session_id w st = (inr tt, st1) ->
  transmission w (sent st1) = Replied r1 ->
  status_code r1 = 409 ->
  session_id_header r1 = Some tok ->
  tok <> "" ->
  let renewed :=
    {| headers := Some tok; sent := S (S (sent st1));
       trace := trace st1 ++ [EvSessionPost method (headers st1);
                              EvHeadersUpdate tok;
                              EvSessionPost method (Some tok)] |} in
  (forall r2 j,
     transmission w (S (sent st1)) = Replied r2 ->
     raise_for_status r2 = inr tt ->
     json r2 = inr j ->
     run_transmission_rpc w method st = (inr j, renewed)) /\
  (forall r2,
     transmission w (S (sent st1)) = Replied r2 ->
     status_code r2 = 409 ->
     exists e,
       run_transmission_rpc w method st = (inl e, renewed) /\
       is_RpcError e = true /\
       e = ExHTTPError 409 (session_id_header r2)
             ("409 Client Error: " ++ reason r2 ++ " for url: " ++ url r2)) /\
  (sent (snd (run_transmission_rpc w method st)) <= S (S (sent st1)))%nat.
Proof.
  intros Hattach Hfirst H409 Hhdr Htok renewed.
  assert (Hstep : forall second,
    (post_rpc w method
       {| headers := Some tok; sent := S (sent st1);
          trace := (trace st1 ++ [EvSessionPost method (headers st1)])
                     ++ [EvHeadersUpdate tok] |} = second) ->
    run_transmission_rpc w method st = second).
  { intros second <-.
    unfold run_transmission_rpc, bind at 1. rewrite Hattach.
    unfold try_except.
    unfold post_rpc at 1, bind at 1, session_post at 1. rewrite Hfirst.
    unfold bind at 1, lift at 1.
    rewrite (raise_for_status_409 r1 H409), Hhdr.
    cbn [Z.eqb Pos.eqb]. rewrite (truthy_str_some tok Htok).
    reflexivity. }
  split; [| split].
  3:{ destruct (run_transmission_rpc_sent w method st st1 Hattach) as [-> | ->];
      lia. }
  - intros r2 j Hsecond Hok Hj. apply Hstep.
    unfold post_rpc, bind, session_post, lift, response_json. simpl.
    rewrite Hsecond, Hok, Hj. subst renewed.
    rewrite <- !app_assoc. reflexivity.
  - intros r2 Hsecond H409'.
    exists (ExHTTPError 409 (session_id_header r2)
              ("409 Client Error: " ++ reason r2 ++ " for url: " ++ url r2)).
    split; [| split; reflexivity].
    apply Hstep.
    unfold post_rpc, bind, session_post, lift. simpl.
    rewrite Hsecond, (raise_for_status_409 r2 H409'). subst renewed.
    rewrite <- !app_assoc. reflexivity.
Qed.

Lemma C3_token_renewal_witness :
  let answer := Sample.rpc (<["peer-port" := PInt 51413]> ∅) None in
  let w := Sample.w_expired (Sample.ok_json answer) in
  attach_session_id w Sample.with_token = (inr tt, Sample.with_token) /\
  run_transmission_rpc w "session-get" Sample.with_token
  = (inr answer,
     {| headers := Some "tok1"; sent := 2;
        trace := [EvSessionPost "session-get" (Some "tok0");
                  EvHeadersUpdate "tok1";
                  EvSessionPost "session-get" (Some "tok1")] |}).
Proof.
  cbv zeta. split; [reflexivity|].
  apply (proj1 (C3_token_renewal
                  (Sample.w_expired
                     (Sample.ok_json
                        (Sample.rpc (<["peer-port" := PInt 51413]> ∅) None)))
                  "session-get" Sample.with_token Sample.with_token
                  _ "tok1" eq_refl eq_refl eq_refl eq_refl
                  ltac:(discriminate)) _ _ eq_refl eq_refl eq_refl).
Defined.

(** * Further properties *)

(** ** Slices of a concatenation *)

Module SliceFacts.
Import Str StrFacts.

Lemma take_app_l n (a b : string) :
  (n <= String.length a)%nat -> take n (a ++ b) = take n a.
Proof.
  revert a. induction n as [|n IH]; intros [|c a] H; simpl in H;
    try reflexivity; try lia.
  rewrite app_cons. simpl. f_equal. apply IH. lia.
Qed.

Lemma take_app_r n (a b : string) :
  (String.length a <= n)%nat ->
  take n (a ++ b) = a ++ take (n - String.length a) b.
Proof.
  revert n. induction a as [|c a IH]; intros n H.
  - rewrite !app_nil_l. simpl. now rewrite Nat.sub_0_r.
  - destruct n as [|n]; simpl in H; [lia|].
    rewrite !app_cons. simpl. f_equal. apply IH. lia.
Qed.

Lemma slice_to_app_l (a b : string) k :
  0 <= k <= len a -> slice_to (a ++ b) k = slice_to a k.
Proof.
  intros [H0 H1]. unfold slice_to.
  destruct (Z.ltb_spec k 0); [lia|].
  apply take_app_l. unfold len in H1. lia.
Qed.

Lemma slice_to_app_r (a b : string) k :
  len a <= k -> slice_to (a ++ b) k = a ++ slice_to b (k - len a).
Proof.
  intros H. pose proof (len_nonneg a). unfold slice_to.
  destruct (Z.ltb_spec k 0); [lia|].
  destruct (Z.ltb_spec (k - len a) 0); [lia|].
  rewrite take_app_r by (unfold len in *; lia).
  do 2 f_equal. unfold len. lia.
Qed.

Lemma slice_to_min s k : 0 <= k -> slice_to s k = slice_to s (Z.min k (len s)).
Proof.
  intros Hk. pose proof (len_nonneg s).
  destruct (Z.le_ge_cases k (len s)).
  - now rewrite Z.min_l.
  - rewrite Z.min_r by lia. now rewrite !slice_to_all by lia.
Qed.

End SliceFacts.

(** ** The two messages of an error *)

Section Messages.
Import StrFacts SliceFacts.

Lemma full_message_starts (e : HealthcheckError) :
  exists rest, full_message e = message e ++ rest.
Proof.
  unfold full_message.
  destruct (truthy_dict (portcheck_error e)); [eauto|].
  destruct (truthy_dict (mismatch_ports e)); [eauto|].
  destruct (truthy_dict (torrent e)); [eauto|].
  destruct (truthy_str (diag_context e)); [eauto|].
  exists "". induction (message e) as [|c s IH]; [reflexivity|].
  rewrite app_cons. now rewrite <- IH.
Qed.

End Messages.



(** X2. The error code survives every truncation: when the code has at
    most 97 characters, the bounded message begins with it. *)
Theorem X2_bounded_message_keeps_code (e : HealthcheckError) :
  Str.len (message e) <= 97 ->
  exists rest, hc_message e = message e ++ rest.
Proof.
  intros Hlen. destruct (full_message_starts e) as [tail Hfull].
  unfold hc_message. cbv zeta.
  destruct (Str.len (full_message e) <=? 100); [eauto|].
  destruct (truthy_dict (portcheck_error e)).
  { destruct (_ <=? 100); [eauto|].
    rewrite SliceFacts.slice_to_app_r by lia. eauto. }
  destruct (truthy_dict (mismatch_ports e)).
  { destruct (_ <=? 100); [eauto|].
    rewrite SliceFacts.slice_to_app_r by lia. eauto. }
  destruct (truthy_dict (torrent e)).
  { destruct (_ <=? 100); [eauto|].
    destruct (4 <? _); [eauto|].
    destruct (4 <? _); [eauto|].
    rewrite SliceFacts.slice_to_app_r by lia. eauto. }
  rewrite Hfull, SliceFacts.slice_to_app_r by lia.
  rewrite StrFacts.app_assoc. eauto.
Qed.

Lemma X2_bounded_message_keeps_code_witness :
  Str.len (message Sample.long_plain) <= 97 /\
  exists rest, hc_message Sample.long_plain = "E:CLOSED" ++ rest.
Proof.
  assert (H : Str.len (message Sample.long_plain) <= 97)
    by (vm_compute; discriminate).
  split; [exact H|].
  exact (X2_bounded_message_keeps_code Sample.long_plain H).
Defined.

(** X3. A port-check error whose full message is too long is sent as
    [code(detail)], without the context, cut at 100 characters with no
    ellipsis: the bounded message is the beginning of the full message. *)
Theorem X3_portcheck_error_bounded (e : HealthcheckError) :
  truthy_dict (portcheck_error e) = true ->
  100 < Str.len (full_message e) ->
  let rendered := message e ++ "(" ++ portcheck_detail e ++ ")" in
  hc_message e = Str.slice_to rendered 100 /\
  hc_message e
  = Str.slice_to (full_message e) (Z.min 100 (Str.len rendered)).
Proof.
  intros Hp Hfull rendered.
  assert (Hhc : hc_message e = Str.slice_to rendered 100).
  { unfold hc_message. cbv zeta. rewrite Hp.
    destruct (Z.leb_spec (Str.len (full_message e)) 100); [lia|].
    fold rendered.
    destruct (Z.leb_spec (Str.len rendered) 100); [| reflexivity].
    now rewrite StrFacts.slice_to_all. }
  split; [exact Hhc|]. rewrite Hhc.
  assert (Hf : full_message e = rendered ++ " | " ++ fmt_opt (diag_context e)).
  { unfold full_message. rewrite Hp. subst rendered.
    rewrite !StrFacts.app_assoc. reflexivity. }
  pose proof (StrFacts.len_nonneg rendered).
  rewrite Hf, SliceFacts.slice_to_app_l by lia.
  apply SliceFacts.slice_to_min. lia.
Qed.

Lemma X3_portcheck_error_bounded_witness :
  100 < Str.len (full_message Cases.portcheck_long) /\
  hc_message Cases.portcheck_long
  = "E:PORTCHECK_UNEXPECTED_RESP(" ++ Sample.times "<html>" 12.
Proof.
  assert (H : 100 < Str.len (full_message Cases.portcheck_long))
    by (vm_compute; reflexivity).
  split; [exact H|].
  rewrite (proj1 (X3_portcheck_error_bounded Cases.portcheck_long eq_refl H)).
  vm_compute. reflexivity.
Defined.

(** X4. A mismatch error whose full message is too long is sent as
    [code(G:gateway|T:daemon)] without the context, cut at 100 characters
    with no ellipsis.  When that rendering fits, as it does for the code
    [E:MISMATCH] and two port numbers, both ports are in the bounded
    message. *)
Theorem X4_mismatch_error_bounded (e : HealthcheckError) :
  truthy_dict (portcheck_error e) = false ->
  truthy_dict (mismatch_ports e) = true ->
  100 < Str.len (full_message e) ->
  let rendered := message e ++ "(G:" ++ field (mismatch_ports e) "gluetun"
                    ++ "|T:" ++ field (mismatch_ports e) "transmission" ++ ")" in
  hc_message e = Str.slice_to rendered 100 /\
  hc_message e
  = Str.slice_to (full_message e) (Z.min 100 (Str.len rendered)) /\
  (Str.len rendered <= 100 -> hc_message e = rendered).
Proof.
  intros Hp Hm Hfull rendered.
  assert (Hhc : hc_message e = Str.slice_to rendered 100).
  { unfold hc_message. cbv zeta. rewrite Hp, Hm.
    destruct (Z.leb_spec (Str.len (full_message e)) 100); [lia|].
    fold rendered.
    destruct (Z.leb_spec (Str.len rendered) 100); [| reflexivity].
    now rewrite StrFacts.slice_to_all. }
  split; [exact Hhc|]. rewrite Hhc. split.
  - assert (Hf : full_message e = rendered ++ " | " ++ fmt_opt (diag_context e)).
    { unfold full_message. rewrite Hp, Hm. subst rendered. cbv zeta.
      rewrite !StrFacts.app_assoc. reflexivity. }
    pose proof (StrFacts.len_nonneg rendered).
    rewrite Hf, SliceFacts.slice_to_app_l by lia.
    apply SliceFacts.slice_to_min. lia.
  - intros Hfit. now apply StrFacts.slice_to_all.
Qed.

Lemma X4_mismatch_error_bounded_witness :
  100 < Str.len (full_message Cases.mismatch_long) /\
  hc_message Cases.mismatch_long = "E:MISMATCH(G:51413|T:60000)".
Proof.
  assert (H : 100 < Str.len (full_message Cases.mismatch_long))
    by (vm_compute; reflexivity).
  split; [exact H|].
  rewrite (proj1 (X4_mismatch_error_bounded Cases.mismatch_long
                    eq_refl eq_refl H)).
  vm_compute. reflexivity.
Defined.

(** ** The detail of a port-check error *)

Lemma portcheck_unexpected_detail msg ctx content :
  portcheck_detail
    {| message := msg; diag_context := ctx; torrent := None;
       mismatch_ports := None;
       portcheck_error := snd (portcheck_unexpected content) |}
  = if String.eqb content "" then "None" else content.
Proof.
  unfold portcheck_detail, portcheck_unexpected, get, py_or. simpl snd.
  simpl portcheck_error. cbn [default]. unfold id.
  rewrite lookup_insert_ne by discriminate.
  rewrite lookup_insert_eq.
  rewrite lookup_insert_ne by discriminate.
  rewrite lookup_insert_ne by discriminate.
  rewrite lookup_empty. simpl.
  destruct (String.eqb content ""); reflexivity.
Qed.

(** X5. When the port-check service answers with a body that is neither
    "1" nor "0", the error raised by the pass shows the stripped body as
    its detail; but for a body that is empty or white space only, the
    detail is the word [None], because [content or exception] skips the
    empty string. *)
Theorem X5_unexpected_body_detail (d : cycle_data)
    (requests_get : string -> http_result unit) (r : response unit) :
  requests_get (portcheck_url (transmission_port d)) = Replied r ->
  raise_for_status r = inr tt ->
  (port_status_bool d, port_check_error d)
  = check_external_port requests_get (transmission_port d) ->
  let content := Str.strip (text r) in
  content <> "1" -> content <> "0" ->
  exists e,
    perform_checks d = inl (ExHealthcheck e) /\
    message e = "E:PORTCHECK_UNEXPECTED_RESP" /\
    full_message e
    = "E:PORTCHECK_UNEXPECTED_RESP("
        ++ (if String.eqb content "" then "None" else content)
        ++ ") | " ++ diagnostic_context d.
Proof.
  intros Hr Hok Hpair content H1 H0.
  assert (Hres : check_external_port requests_get (transmission_port d)
                 = portcheck_unexpected content).
  { unfold check_external_port. rewrite Hr, Hok. cbv zeta. fold content.
    destruct (String.eqb_spec content "1"); [contradiction|].
    destruct (String.eqb_spec content "0"); [contradiction|]. reflexivity. }
  rewrite Hres in Hpair. injection Hpair as Hb Hpc.
  unfold perform_checks. cbv zeta. rewrite Hpc.
  rewrite truthy_dict_some by apply insert_non_empty.
  assert (Hcode :
    py_str (get (default ∅
                   (Some (<["error" := PStr "E:PORTCHECK_UNEXPECTED_RESP"]>
                            (<["content" := PStr content]> ∅)))) "error")
    = "E:PORTCHECK_UNEXPECTED_RESP").
  { unfold get. cbn [default]. unfold id. now rewrite lookup_insert_eq. }
  rewrite Hcode.
  eexists. split; [reflexivity|]. split; [reflexivity|].
  unfold full_message. cbn [portcheck_error message diag_context].
  rewrite truthy_dict_some by apply insert_non_empty.
  rewrite <- (portcheck_unexpected_detail "E:PORTCHECK_UNEXPECTED_RESP"
                (Some (diagnostic_context d)) content).
  reflexivity.
Qed.

Lemma X5_unexpected_body_detail_witness :
  gather Cases.w_blank_probe Sample.fresh
  = (inr Cases.blank_probe_data, Sample.gathered (PInt 51413)) /\
  exists e,
    perform_checks Cases.blank_probe_data = inl (ExHealthcheck e) /\
    full_message e
    = "E:PORTCHECK_UNEXPECTED_RESP(None) | "
        ++ "P:51413(CLOSED) VPN:connected | DL/UL:0/0 | Act:1".
Proof.
  split; [vm_compute; reflexivity|].
  destruct (X5_unexpected_body_detail Cases.blank_probe_data
              (portcheck Cases.w_blank_probe) _ eq_refl eq_refl eq_refl)
    as (e & Hrun & _ & Hfull); [discriminate | discriminate |].
  exists e. split; [exact Hrun | exact Hfull].
Defined.

(** X6. The pair returned by [check_external_port] has one of four
    shapes: exactly one of its two components is [None], and an error
    dict always names one of the two port-check codes. *)
Theorem X6_check_external_port_shapes
    (requests_get : string -> http_result unit) (port : pyval) :
  let result := check_external_port requests_get port in
  (result = port_open \/ result = port_closed \/
   (exists content, result = portcheck_unexpected content) \/
   (exists cls, result = portcheck_down cls)) /\
  (fst result = None <-> snd result <> None) /\
  (forall err, snd result = Some err ->
     err !! "error" = Some (PStr "E:PORTCHECK_UNEXPECTED_RESP") \/
     err !! "error" = Some (PStr "E:PORTCHECK_DOWN")).
Proof.
  cbv zeta. unfold check_external_port.
  destruct (requests_get _) as [cls msg | r].
  2: destruct (raise_for_status r) as [e|];
       [| cbv zeta; destruct (String.eqb _ "1");
          [| destruct (String.eqb _ "0")]].
  all: split; [eauto 6 | split].
  all: try (simpl; split; [intros _; discriminate | reflexivity]).
  all: try (simpl; split; [discriminate | intros H; now contradiction H]).
  all: simpl; intros err [= <-]; rewrite lookup_insert_eq; eauto.
Qed.

(** ** Calls to the daemon *)

Ltac run_rpc :=
  unfold run_transmission_rpc, attach_session_id, get_transmission_session_id,
    try_except, post_rpc, bind, session_get, session_post, headers_update,
    lift, ret, raise, response_json.

Ltac after_attach H :=
  unfold run_transmission_rpc, bind at 1; rewrite H;
  unfold try_except, post_rpc, bind, session_post, headers_update, lift,
    raise, response_json.

(** X7. On a session without a token the call first sends one GET, takes
    the token from the header of the reply, whatever its status, attaches
    it, and then sends the POST with it. *)
Theorem X7_first_use_acquires_token (w : world) (method : string) (st : state)
    (g r : response rpc_json) (tok : string) (j : rpc_json) :
  headers st = None ->
  transmission w (sent st) = Replied g ->
  session_id_header g = Some tok ->
  tok <> "" ->
  transmission w (S (sent st)) = Replied r ->
  raise_for_status r = inr tt ->
  json r = inr j ->
  run_transmission_rpc w method st
  = (inr j,
     {| headers := Some tok; sent := S (S (sent st));
        trace := trace st ++ [EvSessionGet; EvHeadersUpdate tok;
                              EvSessionPost method (Some tok)] |}).
Proof.
  intros Hh Hg Htok Hne Hr Hok Hj. run_rpc.
  rewrite Hh, Hg, Htok, (truthy_str_some tok Hne). simpl.
  rewrite Hr, Hok, Hj. rewrite <- !app_assoc. reflexivity.
Qed.

Lemma X7_first_use_acquires_token_witness :
  let answer := Sample.rpc (<["peer-port" := PInt 51413]> ∅) None in
  run_transmission_rpc Sample.w_healthy "session-get" Sample.fresh
  = (inr answer,
     {| headers := Some "tok0"; sent := 2;
        trace := [EvSessionGet; EvHeadersUpdate "tok0";
                  EvSessionPost "session-get" (Some "tok0")] |}).
Proof.
  cbv zeta.
  apply (X7_first_use_acquires_token Sample.w_healthy "session-get"
           Sample.fresh _ _ "tok0" _ eq_refl eq_refl eq_refl
           ltac:(discriminate) eq_refl eq_refl eq_refl).
Defined.

(** X8. When the token cannot be obtained on first use, the call fails
    after the one GET and sends no POST: with [ConnectionError] and the
    text of the cause when the GET raises, with [ValueError] when the reply
    has no session header or an empty one. *)
Theorem X8_first_use_failure (w : world) (method : string) (st : state) :
  headers st = None ->
  let after_get :=
    {| headers := None; sent := S (sent st);
       trace := trace st ++ [EvSessionGet] |} in
  (forall cls msg,
     transmission w (sent st) = Raised cls msg ->
     run_transmission_rpc w method st
     = (inl (ExConnectionError
               ("Failed to connect to Transmission to get session ID: " ++ msg)),
        after_get)) /\
  (forall g,
     transmission w (sent st) = Replied g ->
     truthy_str (session_id_header g) = false ->
     run_transmission_rpc w method st
     = (inl (ExValueError "Could not retrieve Transmission Session ID."),
        after_get)).
Proof.
  intros Hh after_get. split.
  - intros cls msg Hg. run_rpc. rewrite Hh, Hg. reflexivity.
  - intros g Hg Hfalse. run_rpc. rewrite Hh, Hg. simpl. subst after_get.
    destruct (session_id_header g) as [id|]; [| reflexivity].
    now rewrite Hfalse.
Qed.

Lemma X8_first_use_failure_witness :
  run_transmission_rpc
    (Cases.w_daemon (Raised "ConnectTimeout" "timed out")) "session-get"
    Sample.fresh
  = (inl (ExConnectionError
            "Failed to connect to Transmission to get session ID: timed out"),
     {| headers := None; sent := 1; trace := [EvSessionGet] |}).
Proof.
  apply (proj1 (X8_first_use_failure
                  (Cases.w_daemon (Raised "ConnectTimeout" "timed out"))
                  "session-get" Sample.fresh eq_refl) _ _ eq_refl).
Defined.

(** X9. A call whose POST is answered without an error status and with a
    body that decodes returns the decoded body after that one POST; the
    token of the session is not touched. *)
Theorem X9_call_returns_decoded_body (w : world) (method : string)
    (st st1 : state) (r : response rpc_json) (j : rpc_json) :
  attach_session_id w st = (inr tt, st1) ->
  transmission w (sent st1) = Replied r ->
  raise_for_status r = inr tt ->
  json r = inr j ->
  run_transmission_rpc w method st
  = (inr j,
     {| headers := headers st1; sent := S (sent st1);
        trace := trace st1 ++ [EvSessionPost method (headers st1)] |}).
Proof.
  intros Hattach Hr Hok Hj. after_attach Hattach.
  now rewrite Hr, Hok, Hj.
Qed.

Lemma X9_call_returns_decoded_body_witness :
  let answer := Sample.rpc ∅ None in
  run_transmission_rpc (Cases.w_daemon (Sample.ok_json answer)) "session-stats"
    Sample.with_token
  = (inr answer,
     {| headers := Some "tok0"; sent := 1;
        trace := [EvSessionPost "session-stats" (Some "tok0")] |}).
Proof.
  cbv zeta.
  apply (X9_call_returns_decoded_body
           (Cases.w_daemon (Sample.ok_json (Sample.rpc ∅ None)))
           "session-stats" Sample.with_token Sample.with_token _ _
           eq_refl eq_refl eq_refl eq_refl).
Defined.

(** X10. An error status other than 409 is not retried: the [HTTPError]
    of the reply is raised again after the one POST, and the token of the
    session is not touched. *)
Theorem X10_other_http_error_not_retried (w : world) (method : string)
    (st st1 : state) (r : response rpc_json) :
  attach_session_id w st = (inr tt, st1) ->
  transmission w (sent st1) = Replied r ->
  400 <= status_code r < 600 ->
  status_code r <> 409 ->
  exists msg,
    run_transmission_rpc w method st
    = (inl (ExHTTPError (status_code r) (session_id_header r) msg),
       {| headers := headers st1; sent := S (sent st1);
          trace := trace st1 ++ [EvSessionPost method (headers st1)] |}) /\
    is_RpcError (ExHTTPError (status_code r) (session_id_header r) msg) = true.
Proof.
  intros Hattach Hr Hst Hne.
  assert (Herr : exists msg,
    raise_for_status r
    = inl (ExHTTPError (status_code r) (session_id_header r) msg)).
  { unfold raise_for_status.
    destruct (Z.leb_spec 400 (status_code r)); [| lia].
    destruct (Z.ltb_spec (status_code r) 500); simpl; [eauto|].
    destruct (Z.leb_spec 500 (status_code r)); [| lia].
    destruct (Z.ltb_spec (status_code r) 600); simpl; [eauto | lia]. }
  destruct Herr as [msg Herr]. exists msg. split; [| reflexivity].
  after_attach Hattach. rewrite Hr, Herr.
  destruct (Z.eqb_spec (status_code r) 409); [contradiction | reflexivity].
Qed.

Lemma X10_other_http_error_not_retried_witness :
  exists msg,
    run_transmission_rpc
      (Cases.w_daemon (Replied (Sample.reply 401 None "" Sample.no_json)))
      "torrent-get" Sample.with_token
    = (inl (ExHTTPError 401 None msg),
       {| headers := Some "tok0"; sent := 1;
          trace := [EvSessionPost "torrent-get" (Some "tok0")] |}).
Proof.
  destruct (X10_other_http_error_not_retried
              (Cases.w_daemon (Replied (Sample.reply 401 None "" Sample.no_json)))
              "torrent-get" Sample.with_token Sample.with_token _
              eq_refl eq_refl ltac:(simpl; lia) ltac:(discriminate))
    as (msg & Hrun & _).
  exists msg. exact Hrun.
Defined.

(** X11. A request that fails in transport is reported differently on the
    two attempts.  On the first POST the exception is wrapped in a
    [ConnectionError] that names the RPC method; on the retry after a 409
    it is raised as it is, because the retry runs inside the handler. *)
Theorem X11_transport_failure_wrapped_only_once (w : world) (method : string)
    (st st1 : state) :
  attach_session_id w st = (inr tt, st1) ->
  (forall cls msg,
     transmission w (sent st1) = Raised cls msg ->
     run_transmission_rpc w method st
     = (inl (ExConnectionError
               ("Transmission RPC call '" ++ method ++ "' failed: " ++ msg)),
        {| headers := headers st1; sent := S (sent st1);
           trace := trace st1 ++ [EvSessionPost method (headers st1)] |})) /\
  (forall r1 tok cls msg,
     transmission w (sent st1) = Replied r1 ->
     status_code r1 = 409 ->
     session_id_header r1 = Some tok ->
     tok <> "" ->
     transmission w (S (sent st1)) = Raised cls msg ->
     run_transmission_rpc w method st
     = (inl (ExRequest cls msg),
        {| headers := Some tok; sent := S (S (sent st1));
           trace := trace st1 ++ [EvSessionPost method (headers st1);
                                  EvHeadersUpdate tok;
                                  EvSessionPost method (Some tok)] |})).
Proof.
  intros Hattach. split.
  - intros cls msg Hr. after_attach Hattach. now rewrite Hr.
  - intros r1 tok cls msg Hr1 H409 Hhdr Htok Hr2. after_attach Hattach.
    rewrite Hr1, (raise_for_status_409 r1 H409), Hhdr.
    cbn [Z.eqb Pos.eqb]. rewrite (truthy_str_some tok Htok). simpl.
    rewrite Hr2. rewrite <- !app_assoc. reflexivity.
Qed.

Lemma X11_transport_failure_wrapped_only_once_witness :
  run_transmission_rpc Cases.w_gone_at_retry "session-get" Sample.with_token
  = (inl (ExRequest "ConnectionError" "Connection aborted."),
     {| headers := Some "tok1"; sent := 2;
        trace := [EvSessionPost "session-get" (Some "tok0");
                  EvHeadersUpdate "tok1";
                  EvSessionPost "session-get" (Some "tok1")] |}).
Proof.
  apply (proj2 (X11_transport_failure_wrapped_only_once Cases.w_gone_at_retry
                  "session-get" Sample.with_token Sample.with_token eq_refl)
           _ "tok1" _ _ eq_refl eq_refl eq_refl ltac:(discriminate) eq_refl).
Defined.

(** X12. A 409 reply that carries no session header, or an empty one, is
    not retried: the call raises [ValueError] after the one POST and leaves
    the token of the session as it was. *)
Theorem X12_conflict_without_token (w : world) (method : string)
    (st st1 : state) (r : response rpc_json) :
  attach_session_id w st = (inr tt, st1) ->
  transmission w (sent st1) = Replied r ->
  status_code r = 409 ->
  truthy_str (session_id_header r) = false ->
  run_transmission_rpc w method st
  = (inl (ExValueError "Could not renew expired Transmission Session ID."),
     {| headers := headers st1; sent := S (sent st1);
        trace := trace st1 ++ [EvSessionPost method (headers st1)] |}).
Proof.
  intros Hattach Hr H409 Hfalse. after_attach Hattach.
  rewrite Hr, (raise_for_status_409 r H409). cbn [Z.eqb Pos.eqb].
  destruct (session_id_header r) as [id|]; [| reflexivity].
  now rewrite Hfalse.
Qed.

Lemma X12_conflict_without_token_witness :
  run_transmission_rpc
    (Cases.w_daemon (Replied (Sample.reply 409 None "" Sample.no_json)))
    "session-get" Sample.with_token
  = (inl (ExValueError "Could not renew expired Transmission Session ID."),
     {| headers := Some "tok0"; sent := 1;
        trace := [EvSessionPost "session-get" (Some "tok0")] |}).
Proof.
  apply (X12_conflict_without_token
           (Cases.w_daemon (Replied (Sample.reply 409 None "" Sample.no_json)))
           "session-get" Sample.with_token Sample.with_token _
           eq_refl eq_refl eq_refl eq_refl).
Defined.

(** ** The token of the session *)

Lemma attach_session_id_token w st st1 :
  token_ok st ->
  attach_session_id w st = (inr tt, st1) ->
  exists tok, headers st1 = Some tok /\ tok <> "".
Proof.
  unfold token_ok, attach_session_id, get_transmission_session_id,
    try_except, bind, session_get, headers_update, ret, raise.
  destruct (headers st) as [tok0|] eqn:Eh.
  - intros Hok [= <-]. rewrite Eh. eauto.
  - intros _. destruct (transmission w (sent st)) as [cls msg | g];
      [discriminate|].
    destruct (session_id_header g) as [id|] eqn:Eid; [| discriminate].
    unfold truthy_str. destruct (String.eqb_spec id ""); [discriminate|].
    simpl. intros [= <-]. simpl. eauto.
Qed.

Lemma attach_session_id_token_ok w st :
  token_ok st -> token_ok (snd (attach_session_id w st)).
Proof.
  intros Hok.
  destruct (attach_session_id w st) as [[e|[]] st1] eqn:E.
  - revert E. unfold token_ok in *.
    unfold attach_session_id, get_transmission_session_id,
      try_except, bind, session_get, headers_update, ret, raise.
    destruct (headers st) as [tok0|] eqn:Eh; [discriminate|].
    destruct (transmission w (sent st)) as [cls msg | g].
    + intros [= _ <-]. exact I.
    + destruct (session_id_header g) as [id|].
      * destruct (truthy_str (Some id)); [discriminate|].
        intros [= _ <-]. exact I.
      * intros [= _ <-]. exact I.
  - destruct (attach_session_id_token w st st1 Hok E) as (tok & Htok & Hne).
    unfold token_ok. simpl. now rewrite Htok.
Qed.

Lemma post_rpc_headers w method st :
  headers (snd (post_rpc w method st)) = headers st.
Proof.
  unfold post_rpc, bind, session_post, lift.
  destruct (transmission w (sent st)) as [cls msg | r]; [reflexivity|].
  destruct (raise_for_status r); [reflexivity|].
  destruct (response_json r); reflexivity.
Qed.

Lemma run_transmission_rpc_token (w : world) (method : string) (st : state) :
  token_ok st ->
  token_ok (snd (run_transmission_rpc w method st)) /\
  (forall j,
     fst (run_transmission_rpc w method st) = inr j ->
     exists tok,
       headers (snd (run_transmission_rpc w method st)) = Some tok /\
       tok <> "").
Proof.
  intros Hok.
  remember (run_transmission_rpc w method st) as res eqn:Hres.
  unfold run_transmission_rpc, bind at 1 in Hres.
  pose proof (attach_session_id_token_ok w st Hok) as Hok1.
  destruct (attach_session_id w st) as [[e|[]] st1] eqn:Eattach.
  { subst res. split; [exact Hok1 | discriminate]. }
  destruct (attach_session_id_token w st st1 Hok Eattach) as (tok & Htok & Hne).
  unfold try_except in Hres.
  pose proof (post_rpc_headers w method st1) as Hpost.
  destruct (post_rpc w method st1) as [[e|j] st2]; simpl in Hpost.
  2:{ subst res. simpl. unfold token_ok. rewrite Hpost, Htok. eauto. }
  assert (Hkeep : token_ok st2) by (unfold token_ok; now rewrite Hpost, Htok).
  destruct e; try (subst res; split; [exact Hkeep | discriminate]).
  destruct (status =? 409); [| subst res; split; [exact Hkeep | discriminate]].
  destruct session_id as [id|];
    [| subst res; split; [exact Hkeep | discriminate]].
  unfold truthy_str in Hres. destruct (String.eqb_spec id "");
    [subst res; split; [exact Hkeep | discriminate]|].
  cbn [negb] in Hres. unfold bind, headers_update in Hres.
  subst res. unfold token_ok. rewrite post_rpc_headers. simpl. eauto.
Qed.

(** X13. The session never holds an empty token: if its token is absent or
    non-empty before a call, it is so after the call, and after a call
    that returns the session holds a non-empty token. *)
Theorem X13_session_token_never_empty (w : world) (method : string)
    (st : state) :
  token_ok st ->
  token_ok (snd (run_transmission_rpc w method st)) /\
  (forall j,
     fst (run_transmission_rpc w method st) = inr j ->
     exists tok,
       headers (snd (run_transmission_rpc w method st)) = Some tok /\
       tok <> "").
Proof. apply run_transmission_rpc_token. Qed.

Lemma X13_session_token_never_empty_witness :
  token_ok Sample.fresh /\
  token_ok (snd (run_transmission_rpc Sample.w_healthy "session-get" Sample.fresh)).
Proof.
  assert (H : token_ok Sample.fresh) by exact I.
  split; [exact H|].
  exact (proj1 (X13_session_token_never_empty Sample.w_healthy "session-get"
                  Sample.fresh H)).
Defined.

(** ** What a computation adds to the trace *)

Section Appends.

Lemma appends_ret {A} P (a : A) : appends P (ret a).
Proof. intros st. exists []. simpl. now rewrite app_nil_r. Qed.

Lemma appends_raise {A} P e : appends P (raise (A := A) e).
Proof. intros st. exists []. simpl. now rewrite app_nil_r. Qed.

Lemma appends_lift {A} P (r : exn + A) : appends P (lift r).
Proof. intros st. exists []. simpl. now rewrite app_nil_r. Qed.

Lemma appends_bind {A B} P (m : M A) (k : A -> M B) :
  appends P m -> (forall a, appends P (k a)) -> appends P (bind m k).
Proof.
  intros Hm Hk st. unfold bind.
  destruct (Hm st) as (evs & Ht & Hp).
  destruct (m st) as [[e|a] st1]; simpl in Ht.
  - exists evs. now split.
  - destruct (Hk a st1) as (evs' & Ht' & Hp').
    exists (evs ++ evs')%list. split.
    + now rewrite Ht', Ht, app_assoc.
    + now apply Forall_app.
Qed.

Lemma appends_try_except {A} P (m : M A) (h : exn -> M A) :
  appends P m -> (forall e, appends P (h e)) -> appends P (try_except m h).
Proof.
  intros Hm Hh st. unfold try_except.
  destruct (Hm st) as (evs & Ht & Hp).
  destruct (m st) as [[e|a] st1]; simpl in Ht.
  - destruct (Hh e st1) as (evs' & Ht' & Hp').
    exists (evs ++ evs')%list. split.
    + now rewrite Ht', Ht, app_assoc.
    + now apply Forall_app.
  - exists evs. now split.
Qed.

Lemma appends_one {A} (P : event -> Prop) (m : M A) ev :
  P ev -> (forall st, trace (snd (m st)) = (trace st ++ [ev])%list) ->
  appends P m.
Proof.
  intros Hp Hm st. exists [ev]. split; [apply Hm | now constructor].
Qed.

Lemma appends_gluetun_get path res : appends quiet (gluetun_get path res).
Proof.
  apply (appends_one quiet _ (EvGluetunGet path)); [now split|].
  intros st. unfold gluetun_get.
  destruct res as [cls msg | r]; [reflexivity|].
  destruct (raise_for_status r); reflexivity.
Qed.

Lemma appends_session_get w : appends quiet (session_get w).
Proof.
  apply (appends_one quiet _ EvSessionGet); [now split|].
  intros st. unfold session_get. now destruct (transmission w (sent st)).
Qed.

Lemma appends_headers_update id : appends quiet (headers_update id).
Proof. apply (appends_one quiet _ (EvHeadersUpdate id)); [now split | reflexivity]. Qed.

Lemma appends_post_rpc w method : appends quiet (post_rpc w method).
Proof.
  unfold post_rpc. apply appends_bind.
  - intros st. exists [EvSessionPost method (headers st)].
    split; [| now repeat constructor].
    unfold session_post. now destruct (transmission w (sent st)).
  - intros r. apply appends_bind; [apply appends_lift|].
    intros _. apply appends_lift.
Qed.

Lemma appends_attach_session_id w : appends quiet (attach_session_id w).
Proof.
  intros st. unfold attach_session_id.
  destruct (headers st); [apply appends_ret|].
  revert st. apply appends_bind.
  - unfold get_transmission_session_id. apply appends_bind.
    + apply appends_try_except; [apply appends_session_get|].
      intros e. apply appends_raise.
    + intros r. apply appends_ret.
  - intros [id|]; [| apply appends_raise].
    destruct (truthy_str (Some id));
      [apply appends_headers_update | apply appends_raise].
Qed.

Lemma appends_run_transmission_rpc w method :
  appends quiet (run_transmission_rpc w method).
Proof.
  unfold run_transmission_rpc. apply appends_bind;
    [apply appends_attach_session_id|].
  intros _. apply appends_try_except; [apply appends_post_rpc|].
  intros [e | status session_id msg | cls msg | msg | msg];
    try apply appends_raise.
  destruct (status =? 409); [| apply appends_raise].
  destruct session_id as [id|]; [| apply appends_raise].
  destruct (truthy_str (Some id)); [| apply appends_raise].
  apply appends_bind; [apply appends_headers_update|].
  intros _. apply appends_post_rpc.
Qed.

End Appends.

(** ** The trace of a pass *)

Section PassTrace.

Lemma probes_last_raise {A} (port : A -> pyval) e :
  probes_last port (raise e).
Proof. intros st. exists []. simpl. now rewrite app_nil_r. Qed.

Lemma probes_last_bind {A B} (port : B -> pyval) (m : M A) (k : A -> M B) :
  appends quiet m -> (forall a, probes_last port (k a)) ->
  probes_last port (bind m k).
Proof.
  intros Hm Hk st. unfold bind.
  destruct (Hm st) as (evs & Ht & Hp).
  destruct (m st) as [[e|a] st1]; simpl in Ht.
  - exists evs. now split.
  - specialize (Hk a st1).
    destruct (k a st1) as [[e|b] st2]; destruct Hk as (evs' & Ht' & Hp');
      exists (evs ++ evs')%list; (split; [| now apply Forall_app]).
    + now rewrite Ht', Ht, app_assoc.
    + now rewrite Ht', Ht, !app_assoc.
Qed.

Lemma gather_probes_last w : probes_last transmission_port (gather w).
Proof.
  unfold gather.
  apply probes_last_bind; [apply appends_gluetun_get|]. intros d1.
  apply probes_last_bind; [apply appends_gluetun_get|]. intros d2.
  destruct (negb _); [apply probes_last_raise|].
  apply probes_last_bind; [apply appends_run_transmission_rpc|]. intros j1.
  apply probes_last_bind; [apply appends_run_transmission_rpc|]. intros j2.
  apply probes_last_bind; [apply appends_run_transmission_rpc|]. intros j3.
  destruct (get _ "peer-port") eqn:Eport; [apply probes_last_raise| | |].
  all: intros st; destruct (check_external_port _ _) as [pb perr];
    exists []; simpl; split; [reflexivity | constructor].
Qed.



Lemma count_quiet p (evs : list event) :
  (forall ev, p ev = true -> is_ping ev = true \/ is_portcheck ev = true) ->
  List.Forall quiet evs -> count p evs = 0%nat.
Proof.
  intros Hp Hq. unfold count. induction Hq as [|ev evs [Hq1 Hq2] _ IH];
    [reflexivity|].
  simpl. destruct (p ev) eqn:E; [| exact IH].
  destruct (Hp ev E); congruence.
Qed.



End PassTrace.


(** X15. The port-check service is asked last and only once the gateway
    and the daemon have given complete data: a pass that fails before
    that makes no port-check request, and otherwise the single port-check
    request, for the daemon's peer port, comes after all other requests. *)
Theorem X15_port_check_comes_last (w : world) (st : state) :
  match gather w st with
  | (inl e, st') =>
      cycle_body w st = (inl e, st') /\
      exists evs,
        trace st' = (trace st ++ evs)%list /\
        count is_portcheck evs = 0%nat /\ count is_ping evs = 0%nat
  | (inr d, st') =>
      exists evs,
        trace st'
        = (trace st ++ evs ++ [EvPortcheckGet (transmission_port d)])%list /\
        count is_portcheck evs = 0%nat /\ count is_ping evs = 0%nat
  end.
Proof.
  pose proof (gather_probes_last w st) as Hg.
  unfold cycle_body, bind.
  destruct (gather w st) as [[e|d] st'];
    destruct Hg as (evs & Ht & Hq); [split; [reflexivity|]|];
    exists evs; (split; [exact Ht|]);
    split; apply count_quiet; auto.
Qed.

Lemma X15_port_check_comes_last_witness :
  cycle_body Cases.w_no_peer_port Sample.fresh
  = (inl (ExHealthcheck (plain_error
       "E:TR_PARSE | Missing 'peer-port' in Transmission session data" None)),
     {| headers := Some "tok0"; sent := 4;
        trace := [EvGluetunGet "/v1/portforward"; EvGluetunGet "/v1/vpn/status";
                  EvSessionGet; EvHeadersUpdate "tok0";
                  EvSessionPost "session-get" (Some "tok0");
                  EvSessionPost "session-stats" (Some "tok0");
                  EvSessionPost "torrent-get" (Some "tok0")] |}).
Proof.
  pose proof (X15_port_check_comes_last Cases.w_no_peer_port Sample.fresh) as H.
  assert (E : gather Cases.w_no_peer_port Sample.fresh
              = (inl (ExHealthcheck (plain_error
                   "E:TR_PARSE | Missing 'peer-port' in Transmission session data"
                   None)),
                 {| headers := Some "tok0"; sent := 4;
                    trace := [EvGluetunGet "/v1/portforward";
                              EvGluetunGet "/v1/vpn/status";
                              EvSessionGet; EvHeadersUpdate "tok0";
                              EvSessionPost "session-get" (Some "tok0");
                              EvSessionPost "session-stats" (Some "tok0");
                              EvSessionPost "torrent-get" (Some "tok0")] |}))
    by (vm_compute; reflexivity).
  rewrite E in H. exact (proj1 H).
Defined.




(** ** The loop *)

Section Loop.











End Loop.


(** X18. A failure of the first gateway request ends the pass at once: no
    second gateway request, nothing sent to the daemon or to the
    port-check service.  The exception is not a [HealthcheckError], so the
    "fail" ping carries the first 100 characters of its text. *)
Theorem X18_gateway_failure_ends_pass (w : world) (st : state) :
  let after := emit (EvGluetunGet "/v1/portforward") st in
  (forall cls msg,
     gluetun_portforward w = Raised cls msg ->
     cycle_body w st = (inl (ExRequest cls msg), after)) /\
  (forall r,
     gluetun_portforward w = Replied r ->
     400 <= status_code r < 600 ->
     exists msg,
       cycle_body w st
       = (inl (ExHTTPError (status_code r) (session_id_header r) msg), after) /\
       diagnosis_of (fst (cycle_body w st)) = Unclassified /\
       fail_message (ExHTTPError (status_code r) (session_id_header r) msg)
       = Str.slice_to msg 100).
Proof.
  intros after. split.
  - intros cls msg Hg. unfold cycle_body, gather, bind, gluetun_get.
    now rewrite Hg.
  - intros r Hg Hst.
    assert (Herr : exists msg,
      raise_for_status r
      = inl (ExHTTPError (status_code r) (session_id_header r) msg)).
    { unfold raise_for_status.
      destruct (Z.leb_spec 400 (status_code r)); [| lia].
      destruct (Z.ltb_spec (status_code r) 500); simpl; [eauto|].
      destruct (Z.leb_spec 500 (status_code r)); [| lia].
      destruct (Z.ltb_spec (status_code r) 600); simpl; [eauto | lia]. }
    destruct Herr as [msg Herr]. exists msg.
    assert (Hc : cycle_body w st
                 = (inl (ExHTTPError (status_code r) (session_id_header r) msg),
                    after)).
    { unfold cycle_body, gather, bind, gluetun_get. now rewrite Hg, Herr. }
    rewrite Hc. repeat split.
Qed.

Lemma X18_gateway_failure_ends_pass_witness :
  400 <= 500 < 600 /\
  exists msg,
    cycle_body Cases.w_gateway_500 Sample.fresh
    = (inl (ExHTTPError 500 None msg),
       emit (EvGluetunGet "/v1/portforward") Sample.fresh) /\
    fail_message (ExHTTPError 500 None msg) = Str.slice_to msg 100.
Proof.
  assert (H : 400 <= 500 < 600) by lia.
  split; [exact H|].
  destruct (proj2 (X18_gateway_failure_ends_pass Cases.w_gateway_500
                     Sample.fresh) _ eq_refl H)
    as (msg & Hrun & _ & Hmsg).
  exists msg. split; [exact Hrun | exact Hmsg].
Defined.

(** X19. Ports are compared as Python values, so a gateway port given as
    a string never equals an integer peer port, even when both print the
    same digits.  Whenever the ports differ and the probe gave no error,
    the pass raises the mismatch error, whose full message shows both
    values as they print. *)
Theorem X19_ports_compared_as_values (w : world) (st st1 : state)
    (d : cycle_data) :
  gather w st = (inr d, st1) ->
  port_check_error d = None ->
  py_eq (gluetun_port d) (transmission_port d) = false ->
  (exists e,
     cycle_body w st = (inl (ExHealthcheck e), st1) /\
     diagnosis_of (fst (cycle_body w st)) = PortMismatch /\
     full_message e
     = "E:MISMATCH(G:" ++ py_str (gluetun_port d) ++ "|T:"
         ++ py_str (transmission_port d) ++ ") | " ++ diagnostic_context d) /\
  (forall s z, py_eq (PStr s) (PInt z) = false).
Proof.
  intros Hg Hpc Hne. split; [| reflexivity].
  rewrite (cycle_body_gather _ _ _ _ Hg).
  unfold perform_checks. cbv zeta. rewrite Hpc, Hne. simpl.
  eexists. split; [reflexivity|]. split; [reflexivity|].
  unfold full_message. cbn [portcheck_error mismatch_ports message diag_context].
  simpl truthy_dict at 1. cbv iota.
  rewrite truthy_dict_some by apply insert_non_empty.
  cbv zeta. unfold field, get. cbn [default]. unfold id.
  rewrite lookup_insert_eq.
  rewrite lookup_insert_ne by discriminate. rewrite lookup_insert_eq.
  reflexivity.
Qed.

Lemma X19_ports_compared_as_values_witness :
  exists e st1,
    cycle_body Cases.w_string_port Sample.fresh = (inl (ExHealthcheck e), st1) /\
    full_message e
    = "E:MISMATCH(G:51413|T:51413) | "
        ++ "P:51413(OPEN) VPN:connected | DL/UL:0/0 | Act:1".
Proof.
  destruct (gather Cases.w_string_port Sample.fresh) as [[x|d] st1] eqn:Eg;
    [vm_compute in Eg; discriminate Eg|].
  assert (Hd : d = {| gluetun_port := PStr "51413";
                      gluetun_vpn_status := PStr "connected";
                      transmission_port := PInt 51413;
                      active_count := PInt 1; dl_speed := PInt 0;
                      ul_speed := PInt 0; system_error_torrents := [];
                      port_status_bool := Some true;
                      port_check_error := None |}).
  { vm_compute in Eg. now inversion Eg. }
  destruct (proj1 (X19_ports_compared_as_values _ _ _ _ Eg
                     ltac:(now rewrite Hd) ltac:(now rewrite Hd)))
    as (e & Hrun & _ & Hfull).
  exists e, st1. split; [exact Hrun|]. rewrite Hfull, Hd. reflexivity.
Defined.



(** X21. The torrent named in a system-error report is the first torrent
    of the gathered list, its error code is the integer 3, and the report
    is made only when the probe found the port open and the ports are
    equal. *)
Theorem X21_reported_torrent (w : world) (st st1 st' : state)
    (d : cycle_data) (e : HealthcheckError) (t : dict) :
  gather w st = (inr d, st1) ->
  cycle_body w st = (inl (ExHealthcheck e), st') ->
  torrent e = Some t ->
  get t "error" = PInt 3 /\
  truthy_dict (torrent e) = true /\
  message e = "E:SYS_ERR" /\
  (exists rest, system_error_torrents d = t :: rest) /\
  port_status_bool d = Some true /\
  port_check_error d = None /\
  py_eq (gluetun_port d) (transmission_port d) = true.
Proof.
  intros Hg Hc Ht.
  destruct (gather_inv _ _ _ _ Hg) as (_ & _ & _ & _ & Hall).
  assert (Hprobe : forall err, port_check_error d = Some err -> err <> ∅)
    by (intros err Herr; now destruct (gather_probe_error _ _ _ _ _ Hg Herr)).
  rewrite (cycle_body_gather _ _ _ _ Hg) in Hc.
  unfold perform_checks in Hc. cbv zeta in Hc.
  destruct (port_check_error d) as [err|] eqn:Epc.
  { rewrite truthy_dict_some in Hc by now apply Hprobe.
    injection Hc as <- _. discriminate Ht. }
  simpl truthy_dict in Hc. cbv iota in Hc.
  destruct (py_eq (gluetun_port d) (transmission_port d)); simpl negb in Hc;
    cbv iota in Hc; [| injection Hc as <- _; discriminate Ht].
  destruct (port_status_bool d) as [[|]|]; simpl in Hc;
    try (injection Hc as <- _; discriminate Ht).
  destruct (system_error_torrents d) as [|t0 ts] eqn:Ets; [discriminate Hc|].
  injection Hc as <- _. simpl in Ht. injection Ht as ->.
  assert (Herr3 : get t "error" = PInt 3).
  { inversion Hall as [|? ? H3 _]; subst.
    destruct (get t "error") as [| [|] | z | s]; try discriminate H3.
    simpl in H3. apply Z.eqb_eq in H3. now subst. }
  split; [exact Herr3|]. split.
  - apply truthy_dict_some. intros ->. unfold get in Herr3.
    rewrite lookup_empty in Herr3. discriminate.
  - repeat split; eauto.
Qed.

Lemma X21_reported_torrent_witness :
  exists e st',
    cycle_body Sample.w_sys_err Sample.fresh = (inl (ExHealthcheck e), st') /\
    torrent e = Some Sample.bad_torrent /\
    get Sample.bad_torrent "error" = PInt 3.
Proof.
  destruct (gather Sample.w_sys_err Sample.fresh) as [[x|d] st1] eqn:Eg;
    [vm_compute in Eg; discriminate Eg|].
  destruct (cycle_body Sample.w_sys_err Sample.fresh)
    as [[[e| | | |]|ctx] st'] eqn:Ec;
    try (vm_compute in Ec; discriminate Ec).
  assert (Ht : torrent e = Some Sample.bad_torrent).
  { vm_compute in Ec. now inversion Ec. }
  exists e, st'. split; [reflexivity|]. split; [exact Ht|].
  exact (proj1 (X21_reported_torrent _ _ _ _ _ _ _ Eg Ec Ht)).
Defined.

(** X22. The three pings of [main] go to three different URLs: "start"
    and "fail" to the base URL followed by a slash and the event, and
    "success", like any other event, to the base URL itself. *)
Theorem X22_ping_urls (HC_URL : string) :
  ping_url HC_URL "start" = HC_URL ++ "/start" /\
  ping_url HC_URL "fail" = HC_URL ++ "/fail" /\
  (forall event, event <> "start" -> event <> "fail" ->
     ping_url HC_URL event = HC_URL) /\
  ping_url HC_URL "success" <> ping_url HC_URL "start" /\
  ping_url HC_URL "success" <> ping_url HC_URL "fail" /\
  ping_url HC_URL "start" <> ping_url HC_URL "fail".
Proof.
  assert (Hlonger : forall suffix, suffix <> "" -> HC_URL <> HC_URL ++ suffix).
  { intros suffix Hs E. apply (f_equal String.length) in E.
    rewrite StrFacts.length_app in E. destruct suffix; [now apply Hs|].
    simpl in E. lia. }
  split; [reflexivity|]. split; [reflexivity|]. split.
  - intros event H1 H2. unfold ping_url.
    destruct (String.eqb_spec event "start"); [contradiction|].
    destruct (String.eqb_spec event "fail"); [contradiction|]. reflexivity.
  - split; [| split].
    + apply Hlonger. discriminate.
    + apply Hlonger. discriminate.
    + change (HC_URL ++ "/start" <> HC_URL ++ "/fail").
      intros E. apply String.app_inj in E. discriminate.
Qed.

(** ** Reuse of the token *)

Lemma post_rpc_trace w method st :
  trace (snd (post_rpc w method st))
  = (trace st ++ [EvSessionPost method (headers st)])%list.
Proof.
  unfold post_rpc, bind, session_post, lift.
  destruct (transmission w (sent st)) as [cls msg | r]; [reflexivity|].
  destruct (raise_for_status r); [reflexivity|].
  destruct (response_json r); reflexivity.
Qed.

Lemma run_with_token_starts_with_post w method st tok :
  headers st = Some tok ->
  exists rest,
    trace (snd (run_transmission_rpc w method st))
    = (trace st ++ EvSessionPost method (Some tok) :: rest)%list.
Proof.
  intros Hh.
  assert (Hattach : attach_session_id w st = (inr tt, st))
    by (unfold attach_session_id, ret; now rewrite Hh).
  remember (run_transmission_rpc w method st) as res eqn:Hres.
  unfold run_transmission_rpc, bind at 1 in Hres. rewrite Hattach in Hres.
  unfold try_except in Hres.
  pose proof (post_rpc_trace w method st) as Ht. rewrite Hh in Ht.
  destruct (post_rpc w method st) as [[e|j] st2]; simpl in Ht.
  2:{ subst res. exists []. exact Ht. }
  assert (Hstop : exists rest,
            trace st2 = (trace st ++ EvSessionPost method (Some tok) :: rest)%list)
    by (exists []; exact Ht).
  destruct e; try (subst res; exact Hstop).
  destruct (status =? 409); [| subst res; exact Hstop].
  destruct session_id as [id|]; [| subst res; exact Hstop].
  destruct (truthy_str (Some id)); [| subst res; exact Hstop].
  subst res. unfold bind, headers_update. rewrite post_rpc_trace. simpl.
  rewrite Ht. rewrite <- !app_assoc. simpl. eauto.
Qed.

(** X23. The token is acquired once and reused: after a call that
    returned, the session holds a non-empty token, the next call has
    nothing to acquire, and the first thing it sends is its POST with that
    token. *)
Theorem X23_token_reused_by_next_call (w : world) (m1 m2 : string)
    (st st' : state) (j : rpc_json) :
  token_ok st ->
  run_transmission_rpc w m1 st = (inr j, st') ->
  exists tok rest,
    headers st' = Some tok /\ tok <> "" /\
    attach_session_id w st' = (inr tt, st') /\
    trace (snd (run_transmission_rpc w m2 st'))
    = (trace st' ++ EvSessionPost m2 (Some tok) :: rest)%list.
Proof.
  intros Hok Hrun.
  destruct (run_transmission_rpc_token w m1 st Hok) as [_ Htok].
  rewrite Hrun in Htok. destruct (Htok j eq_refl) as (tok & Hh & Hne).
  simpl in Hh.
  destruct (run_with_token_starts_with_post w m2 st' tok Hh) as [rest Hrest].
  exists tok, rest. repeat split; try assumption.
  unfold attach_session_id, ret. now rewrite Hh.
Qed.

Lemma X23_token_reused_by_next_call_witness :
  token_ok Sample.fresh /\
  exists st' rest,
    snd (run_transmission_rpc Sample.w_healthy "session-get" Sample.fresh) = st' /\
    headers st' = Some "tok0" /\
    trace (snd (run_transmission_rpc Sample.w_healthy "session-stats" st'))
    = (trace st' ++ EvSessionPost "session-stats" (Some "tok0") :: rest)%list.
Proof.
  assert (Hok : token_ok Sample.fresh) by exact I.
  split; [exact Hok|].
  destruct (run_transmission_rpc Sample.w_healthy "session-get" Sample.fresh)
    as [[x|j] st'] eqn:Erun; [vm_compute in Erun; discriminate Erun|].
  destruct (X23_token_reused_by_next_call Sample.w_healthy "session-get"
              "session-stats" _ _ _ Hok Erun) as (tok & rest & Hh & _ & _ & Ht).
  assert (Htok : headers st' = Some "tok0")
    by (vm_compute in Erun; now inversion Erun).
  rewrite Htok in Hh. injection Hh as <-.
  exists st', rest. repeat split; [exact Htok | exact Ht].
Defined.
